(** * CardioMap GIS helpers: name reconciliation, nested-path extraction,
      schema analysis

    A shallow embedding of the three Python utilities
    - [public/check_names.py]                              (module [CheckNames]),
    - [src/components/GIS/helper/extract_nested_values.py] (module [Extractor]),
    - [src/components/GIS/helper/geojson_structure_analyzer.py]
                                                           (module [Analyzer]),
    together with the properties their specification states about them;
    module [Spec] holds the notions of the specification the statements are
    phrased with.

    Console output is not modelled.  A file a tool reads is an argument of
    its model (the parsed document, or [None] when loading fails), a file it
    writes is part of the result.  Resource limits of the interpreter
    (recursion depth, memory) and failures of the file system are outside
    the model.

    Python [str] values are modelled as [string]: the UTF-8 bytes of the text.
    Every pattern the code searches for is ASCII, and UTF-8 is
    self-synchronising and order preserving, so searching, replacing and
    comparing on bytes agrees with Python's code-point semantics.  A [str]
    may hold a lone surrogate ([json.loads] accepts the escape of one); it
    stands here as the three bytes the same scheme gives it
    ([encode('utf-8', 'surrogatepass')]).  The [utf-8] codec refuses such
    text with a [UnicodeEncodeError] when it is written to a file; the
    models of the writing functions do not have this error, and
    [Spec.utf8] and [Spec.encodable] tell the text the codec accepts.
    Whether the console can encode what is printed is outside the model
    with the console. *)

From stdpp Require Import base list strings sorting gmap pretty.
From Stdlib Require Import Ascii ZArith Lia.

Set Warnings "-register-all,-clear-no-such-hyp".

(** ** Python strings *)

Module PyStr.

(** The characters of [s] other than [c], in order. *)
Fixpoint remove_char (c : ascii) (s : string) : string :=
  match s with
  | EmptyString => EmptyString
  | String a s' =>
      if decide (a = c) then remove_char c s' else String a (remove_char c s')
  end.

(** Number of occurrences of the character [c] in [s]. *)
Fixpoint count_char (c : ascii) (s : string) : nat :=
  match s with
  | EmptyString => 0
  | String a s' => (if decide (a = c) then 1 else 0) + count_char c s'
  end.

(** [c in s] for a one-character [c]. *)
Fixpoint has_char (c : ascii) (s : string) : bool :=
  match s with
  | EmptyString => false
  | String a s' => bool_decide (a = c) || has_char c s'
  end.

(** [s] is obtained from [t] by deleting characters (none is rewritten). *)
Inductive subseq : string -> string -> Prop :=
| subseq_nil : subseq EmptyString EmptyString
| subseq_skip a s t : subseq s t -> subseq s (String a t)
| subseq_keep a s t : subseq s t -> subseq (String a s) (String a t).

(** [str.replace(old, new)] for a non-empty [old]: scan left to right; where
    [old] starts at the current position emit [new] and jump past the match,
    otherwise copy one character.  [skip] counts the characters of a match
    that are still to be jumped over. *)
Fixpoint replace_go (old new : string) (skip : nat) (s : string) : string :=
  match s with
  | EmptyString => EmptyString
  | String a s' =>
      match skip with
      | S k => replace_go old new k s'
      | O =>
          if String.prefix old s
          then new +:+ replace_go old new (String.length old - 1) s'
          else String a (replace_go old new 0 s')
      end
  end.

(** [str.replace("", new)] puts [new] before every character and at the
    end. *)
Fixpoint intersperse (new s : string) : string :=
  match s with
  | EmptyString => new
  | String a s' => new +:+ String a (intersperse new s')
  end.

Definition replace (old new s : string) : string :=
  match old with
  | EmptyString => intersperse new s
  | _ => replace_go old new 0 s
  end.

(** [s.split(sep)] for a one-character separator: never the empty list. *)
Fixpoint split (sep : ascii) (s : string) : list string :=
  match s with
  | EmptyString => [EmptyString]
  | String a s' =>
      if decide (a = sep) then EmptyString :: split sep s'
      else match split sep s' with
           | [] => [String a EmptyString]
           | w :: ws => String a w :: ws
           end
  end.

(** [sub in s] on strings: substring test. *)
Fixpoint contains (sub s : string) : bool :=
  String.prefix sub s ||
  match s with
  | EmptyString => false
  | String _ s' => contains sub s'
  end.

(** Leftmost, non-overlapping removal of [old], stated as a relation:
    [removes old s r] when [r] is [s] with each match of [old], found by a
    single left-to-right scan, deleted. *)
Inductive removes (old : string) : string -> string -> Prop :=
| removes_nil : removes old EmptyString EmptyString
| removes_match s r :
    old <> EmptyString ->
    removes old s r -> removes old (old +:+ s) r
| removes_copy a s r :
    String.prefix old (String a s) = false ->
    removes old s r -> removes old (String a s) (String a r).

End PyStr.

(** ** Python values after [json.load], and the operations the code uses *)

Module Py.

(** The exceptions the modelled operations raise. *)
Inductive exn : Type :=
| KeyError (key : string)
| TypeError
| AttributeError.

Inductive result (A : Type) : Type :=
| Ok (a : A)
| Raise (e : exn).
Global Arguments Ok {A} a.
Global Arguments Raise {A} e.

Global Instance result_ret : MRet result := fun A a => Ok a.
Global Instance result_bind : MBind result := fun A B f m =>
  match m with
  | Ok a => f a
  | Raise e => Raise e
  end.

(** [try: body except (KeyError, TypeError, AttributeError): handler] *)
Definition try_except {A} (body : result A) (handler : result A) : result A :=
  match body with
  | Ok a => Ok a
  | Raise (KeyError _) | Raise TypeError | Raise AttributeError => handler
  end.

(** Left-to-right loop with an accumulator; the first exception ends it. *)
Fixpoint foldlM {A B} (f : B -> A -> result B) (b : B) (l : list A)
  : result B :=
  match l with
  | [] => Ok b
  | x :: l' => b' ← f b x; foldlM f b' l'
  end.

(** A [dict] keeps its keys in insertion order: an association list whose
    keys are distinct for every value [json.load] builds.  A [float] is
    carried as its IEEE-754 bit pattern. *)
Inductive value : Type :=
| VNone
| VBool (b : bool)
| VInt (z : Z)
| VFloat (bits : Z)
| VStr (s : string)
| VList (l : list value)
| VDict (d : list (string * value)).

(** First binding of [key] in an insertion-ordered dictionary. *)
Fixpoint lookup {V} (key : string) (d : list (string * V)) : option V :=
  match d with
  | [] => None
  | (k, v) :: d' => if decide (k = key) then Some v else lookup key d'
  end.

(** [if key not in d: d[key] = dflt] followed by [d[key] = f(d[key])]:
    an existing key keeps its position, a new one goes last. *)
Fixpoint upsert {V} (key : string) (f : V -> V) (dflt : V)
    (d : list (string * V)) : list (string * V) :=
  match d with
  | [] => [(key, f dflt)]
  | (k, v) :: d' =>
      if decide (k = key) then (k, f v) :: d'
      else (k, v) :: upsert key f dflt d'
  end.

(** [s.add(x)] on a set kept as a duplicate-free list. *)
Definition set_add (x : string) (s : list string) : list string :=
  if decide (x ∈ s) then s else s ++ [x].

(** Truth value of an object: [bool(v)]. *)
Definition truthy (v : value) : bool :=
  match v with
  | VNone => false
  | VBool b => b
  | VInt z => negb (Z.eqb z 0)
  | VFloat bits => negb (Z.eqb (bits mod 2 ^ 63) 0)
  | VStr s => negb (bool_decide (s = EmptyString))
  | VList l => negb (bool_decide (l = []))
  | VDict d => match d with [] => false | _ => true end
  end.

(** [isinstance(v, dict)] *)
Definition isinstance_dict (v : value) : bool :=
  match v with VDict _ => true | _ => false end.

(** [isinstance(v, list)] *)
Definition isinstance_list (v : value) : bool :=
  match v with VList _ => true | _ => false end.

(** [isinstance(v, (int, float))]: [bool] is a subclass of [int]. *)
Definition isinstance_int_float (v : value) : bool :=
  match v with VBool _ | VInt _ | VFloat _ => true | _ => false end.

(** [type(v).__name__] *)
Definition type_name (v : value) : string :=
  match v with
  | VNone => "NoneType"
  | VBool _ => "bool"
  | VInt _ => "int"
  | VFloat _ => "float"
  | VStr _ => "str"
  | VList _ => "list"
  | VDict _ => "dict"
  end.

(** [key in v] for a string [key]: key test on a dict, element test on a
    list, substring test on a string, [TypeError] on anything else. *)
Definition contains (key : string) (v : value) : result bool :=
  match v with
  | VDict d => Ok (bool_decide (is_Some (lookup key d)))
  | VList l =>
      Ok (existsb (fun x => match x with
                            | VStr s => bool_decide (s = key)
                            | _ => false
                            end) l)
  | VStr s => Ok (PyStr.contains key s)
  | _ => Raise TypeError
  end.

(** [v[key]] for a string [key]. *)
Definition getitem (v : value) (key : string) : result value :=
  match v with
  | VDict d =>
      match lookup key d with
      | Some x => Ok x
      | None => Raise (KeyError key)
      end
  | _ => Raise TypeError
  end.

(** [v.get(key, default)]: only a dict has the method. *)
Definition get (v : value) (key : string) (default : value) : result value :=
  match v with
  | VDict d => Ok (from_option id default (lookup key d))
  | _ => Raise AttributeError
  end.

(** [v.items()] and [v.keys()]: only a dict has the methods. *)
Definition items (v : value) : result (list (string * value)) :=
  match v with
  | VDict d => Ok d
  | _ => Raise AttributeError
  end.

Definition keys (v : value) : result (list string) :=
  match v with
  | VDict d => Ok d.*1
  | _ => Raise AttributeError
  end.

(** The one-character strings of [s]. *)
Fixpoint chars (s : string) : list value :=
  match s with
  | EmptyString => []
  | String a s' => VStr (String a EmptyString) :: chars s'
  end.

(** [for x in v]: the elements of a list, the keys of a dict, the
    characters of a string (here its bytes: a character outside ASCII
    gives several elements, all of them strings); [TypeError] on anything
    else. *)
Definition iter (v : value) : result (list value) :=
  match v with
  | VList l => Ok l
  | VDict d => Ok (VStr <$> d.*1)
  | VStr s => Ok (chars s)
  | _ => Raise TypeError
  end.

(** [len(v)] *)
Definition len (v : value) : result nat :=
  l ← iter v; Ok (length l).

(** [v[:n]]: a list or a string can be sliced.  A scalar gives [TypeError];
    so does a dict up to Python 3.11, where a slice cannot be hashed (from
    3.12 on the failed lookup is a [KeyError]; either way the exception
    escapes). *)
Definition slice_to (n : nat) (v : value) : result value :=
  match v with
  | VList l => Ok (VList (take n l))
  | VStr s => Ok (VStr (String.substring 0 n s))
  | _ => Raise TypeError
  end.

(** The value of a number.  Every finite [float] is a whole multiple of
    [2 ^ -1074], so a finite number is carried as that multiple; Python
    compares an [int] with a [float] by value, without rounding. *)
Inductive number : Type :=
| NegInf
| Finite (scaled : Z)
| PosInf.

(** The value of the [float] with the given bit pattern: sign, eleven bits
    of exponent, fifty-two of fraction; [None] for a NaN. *)
Definition float_number (bits : Z) : option number :=
  let b := (bits mod 2 ^ 64)%Z in
  let negative := Z.testbit b 63 in
  let exponent := ((b / 2 ^ 52) mod 2 ^ 11)%Z in
  let fraction := (b mod 2 ^ 52)%Z in
  if Z.eqb exponent 2047 then
    if Z.eqb fraction 0 then Some (if negative then NegInf else PosInf)
    else None
  else
    let magnitude :=
      if Z.eqb exponent 0 then fraction
      else ((2 ^ 52 + fraction) * 2 ^ (exponent - 1))%Z in
    Some (Finite (if negative then (- magnitude)%Z else magnitude)).

(** The value of a [bool], an [int] or a [float]; [True] is 1. *)
Definition number_of (v : value) : option number :=
  match v with
  | VBool b => Some (Finite ((if b then 1 else 0) * 2 ^ 1074)%Z)
  | VInt z => Some (Finite (z * 2 ^ 1074)%Z)
  | VFloat bits => float_number bits
  | _ => None
  end.

Definition number_eqb (a b : number) : bool :=
  match a, b with
  | NegInf, NegInf | PosInf, PosInf => true
  | Finite x, Finite y => Z.eqb x y
  | _, _ => false
  end.

Definition number_leb (a b : number) : bool :=
  match a, b with
  | NegInf, _ | _, PosInf => true
  | Finite x, Finite y => Z.leb x y
  | _, _ => false
  end.

(** [x <= y] between two numbers that are not NaN. *)
Definition num_le (x y : value) : Prop :=
  match number_of x, number_of y with
  | Some a, Some b => Is_true (number_leb a b)
  | _, _ => True
  end.

#[global] Instance num_le_dec : RelDecision num_le.
Proof.
  intros x y. unfold num_le.
  destruct (number_of x), (number_of y); apply _.
Defined.

(** What Python's formatting of a [float] and its quoting of a [str]
    inside a container produce is left to these two functions. *)
Class Format : Type := {
  float_repr : Z -> string;
  str_repr : string -> string
}.

Section formatting.
Context {fmt : Format}.

(** [repr(v)] *)
Fixpoint repr (v : value) : string :=
  match v with
  | VNone => "None"
  | VBool true => "True"
  | VBool false => "False"
  | VInt z => pretty z
  | VFloat bits => float_repr bits
  | VStr s => str_repr s
  | VList l => "[" +:+ String.concat ", " (map repr l) +:+ "]"
  | VDict d =>
      "{" +:+
      String.concat ", "
        (map (fun '(k, x) => str_repr k +:+ ": " +:+ repr x) d) +:+
      "}"
  end.

(** [str(v)]: a string is itself, everything else is its [repr]. *)
Definition str (v : value) : string :=
  match v with
  | VStr s => s
  | _ => repr v
  end.
End formatting.

End Py.

(** ** [public/check_names.py] *)

Module CheckNames.
Import PyStr Py.

(** [def normalize(name)] *)
Definition normalize (name : string) : string :=
  replace " " "" (replace " County" "" (replace " Province" "" name)).

(** [normalize] applied to whatever the lookup produced: only a [str] has
    the [replace] method. *)
Definition normalize_value (name : value) : result string :=
  match name with
  | VStr s => Ok (normalize s)
  | _ => Raise AttributeError
  end.

(** The loop over [geojson["features"]] that fills [geojson_names]. *)
Definition geojson_names (geojson : value) : result (gset string) :=
  features ← getitem geojson "features";
  fs ← iter features;
  foldlM
    (fun (names : gset string) feature =>
       properties ← get feature "properties" (VDict []);
       tags ← get properties "tags" (VDict []);
       name ← get tags "name:en" (VStr "");
       n ← normalize_value name;
       Ok (names ∪ {[ n ]}))
    ∅ fs.

(** The loop over the rows of the [csv.DictReader] that fills
    [csv_names]; a row is the dict the reader yields. *)
Definition csv_names (rows : list value) : result (gset string) :=
  foldlM
    (fun (names : gset string) row =>
       name ← getitem row "name";
       n ← normalize_value name;
       Ok (names ∪ {[ n ]}))
    ∅ rows.

(** [sorted(s)] for a set of strings: its elements in lexicographic
    order. *)
Definition sorted (s : gset string) : list string :=
  merge_sort String.le (elements s).

(** The three lists the script prints, in the order it prints them. *)
Record report : Type := {
  geojson_not_in_csv : list string;
  csv_not_in_geojson : list string;
  present_in_both : list string
}.

(** The [# Compare] part of the script. *)
Definition compare_names (geojson_names csv_names : gset string) : report :=
  {| geojson_not_in_csv := sorted (geojson_names ∖ csv_names);
     csv_not_in_geojson := sorted (csv_names ∖ geojson_names);
     present_in_both := sorted (geojson_names ∩ csv_names) |}.

(** The whole script on a parsed GeoJSON document and the CSV rows. *)
Definition check_names (geojson : value) (rows : list value)
  : result report :=
  A ← geojson_names geojson;
  B ← csv_names rows;
  Ok (compare_names A B).

End CheckNames.

(** ** [src/components/GIS/helper/extract_nested_values.py] *)

Module Extractor.
Import Py.

(** An insertion-ordered [Dict[str, List[str]]]. *)
Definition pathmap : Type := list (string * list string).

(** The loop of [get_nested_value]: [current] after the keys walked so far;
    a key that cannot be followed ends the walk with [None]. *)
Fixpoint walk (keys : list string) (current : value) : result value :=
  match keys with
  | [] => Ok current
  | key :: rest =>
      if isinstance_dict current then
        present ← contains key current;
        if (present : bool) then next ← getitem current key; walk rest next
        else Ok VNone
      else Ok VNone
  end.

(** [get_nested_value(obj, path)] *)
Definition get_nested_value (obj : value) (path : string) : result value :=
  try_except (walk (PyStr.split "." path) obj) (Ok VNone).

Section with_format.
Context {fmt : Format}.

(** The body of the loop of [extract_values] for one feature. *)
Definition extract_one (path : string) (feature : value) : result string :=
  properties ← get feature "properties" (VDict []);
  val ← get_nested_value properties path;
  match val with
  | VNone => Ok ""
  | _ => Ok (str val)
  end.

(** [extract_values(path)], with [self.data] as an argument. *)
Definition extract_values (data : value) (path : string)
  : result (list string) :=
  if negb (truthy data) then Ok []
  else
    has ← contains "features" data;
    if negb (has : bool) then Ok []
    else
      features ← getitem data "features";
      _ ← len features;
      fs ← iter features;
      mapM (extract_one path) fs.

(** [_find_nested_paths(obj, current_path, paths, max_depth)] returns the
    updated [paths]. *)
Fixpoint find_nested_paths (max_depth : nat) (obj : value)
    (current_path : string) (paths : pathmap) : pathmap :=
  match max_depth with
  | O => paths
  | S depth =>
      match obj with
      | VDict d =>
          foldl
            (fun (paths : pathmap) '((key, val) : string * value) =>
               let path :=
                 if decide (current_path = "") then key
                 else current_path +:+ "." +:+ key in
               match val with
               | VDict d' =>
                   find_nested_paths depth val path
                     (upsert path
                        (fun l => l ++ ["<nested object with " +:+
                                        pretty (length d') +:+ " keys>"])
                        [] paths)
               | _ => upsert path (fun l => l ++ [str val]) [] paths
               end)
            paths d
      | _ => paths
      end
  end.

(** The loop of [analyze_available_paths] over the first features;
    [i] is the index of the next one. *)
Fixpoint available_loop (i : nat) (features : list value)
    (paths : pathmap) : result pathmap :=
  match features with
  | [] => Ok paths
  | feature :: rest =>
      properties ← get feature "properties" (VDict []);
      available_loop (S i) rest
        (find_nested_paths 3 properties ("Feature " +:+ pretty (S i))
           paths)
  end.

(** [analyze_available_paths()] *)
Definition analyze_available_paths (data : value) : result pathmap :=
  if negb (truthy data) then Ok []
  else
    has ← contains "features" data;
    if negb (has : bool) then Ok []
    else
      all ← getitem data "features";
      first ← slice_to 3 all;
      features ← iter first;
      available_loop 0 features [].

(** [export_to_csv(values, output_path)]: the rows handed to the CSV
    writer, header first. *)
Definition export_to_csv (values : list string) : list (list string) :=
  ["value"] :: map (fun value => [value]) values.

(** What a run leaves behind: the value [run] returns and the rows of the
    CSV file it wrote, if it wrote one. *)
Record outcome : Type := {
  returned : bool;
  csv_file : option (list (list string))
}.

(** [run(path, output_path)]; [loaded] is [None] when [load_geojson]
    reports a missing file or invalid JSON, and the parsed document
    otherwise. *)
Definition run (loaded : option value) (path : string) : result outcome :=
  match loaded with
  | None => Ok {| returned := false; csv_file := None |}
  | Some data =>
      _ ← analyze_available_paths data;
      values ← extract_values data path;
      match values with
      | [] => Ok {| returned := false; csv_file := None |}
      | _ => Ok {| returned := true;
                   csv_file := Some (export_to_csv values) |}
      end
  end.

(** [main()]: the exit status of the process when no exception escapes
    ([sys.exit(1)] when [run] returns [False]). *)
Definition main (loaded : option value) (path : string) : result nat :=
  o ← run loaded path;
  Ok (if returned o then 0 else 1).
End with_format.

End Extractor.

(** ** [src/components/GIS/helper/geojson_structure_analyzer.py] *)

Module Analyzer.
Import Py.

(** [sorted(items, key=lambda x: x[1], reverse=True)]: Python's sort is
    stable, and stays so under [reverse=True].  Insertion from the right,
    each element placed before the first one whose key is not larger, is
    such a sort. *)
Fixpoint insert_desc {A} (key : A -> nat) (x : A) (l : list A) : list A :=
  match l with
  | [] => [x]
  | y :: l' =>
      if decide (key y ≤ key x) then x :: y :: l'
      else y :: insert_desc key x l'
  end.

Definition sorted_desc {A} (key : A -> nat) (l : list A) : list A :=
  foldr (insert_desc key) [] l.

(** [dict(pairs)]: later pairs overwrite earlier ones with the same key. *)
Definition dict_of {V} (pairs : list (string * V)) : list (string * V) :=
  foldl (fun d '(k, v) => upsert k (fun _ => v) v d) [] pairs.

(** [_count_coordinates(coords)] *)
Fixpoint count_coordinates (coords : value) : nat :=
  if isinstance_int_float coords then 1
  else
    match coords with
    | VList l => sum_list (map count_coordinates l)
    | _ => 0
    end.

(** [s.lower()] on the ASCII letters. *)
Definition lower_char (a : ascii) : ascii :=
  let n := nat_of_ascii a in
  if decide (65 ≤ n ∧ n ≤ 90) then ascii_of_nat (n + 32) else a.

Fixpoint lower (s : string) : string :=
  match s with
  | EmptyString => EmptyString
  | String a s' => String (lower_char a) (lower s')
  end.

(** What [analyze_file_info] reads from the file system.  The report also
    shows the size in MB, [round(file_size / (1024 * 1024), 2)], a float
    computed from [file_size]. *)
Record file_info : Type := {
  file_path : string;
  file_size : nat;
  analysis_date : string
}.

(** [self.analysis['structure']] once [analyze_structure] has filled it. *)
Record structure_info : Type := {
  type_ : value;
  has_features : bool;
  feature_count : nat;
  has_bbox : bool;
  has_crs : bool;
  top_level_keys : list string
}.

(** The four dictionaries [analyze_properties] fills in its loop. *)
Record tally : Type := {
  t_all_properties : list (string * nat);
  t_property_types : list (string * list string);
  t_property_values : list (string * list string);
  t_unique_values : list (string * list string)
}.

(** [self.analysis['properties']] once [analyze_properties] has filled
    it. *)
Record properties_info : Type := {
  all_properties : list (string * nat);
  property_types : list (string * list string);
  sample_values : list (string * list string);
  unique_value_counts : list (string * nat)
}.

(** [self.analysis['statistics']] once [analyze_geometry] has filled it.
    [avg_coordinates] is the float [coordinate_total / coordinate_features],
    and [0] when no feature had coordinates; it is kept as the two
    integers. *)
Record statistics_info : Type := {
  coordinate_total : nat;
  coordinate_features : nat;
  total_features : nat
}.

(** [self.analysis]; an inner dictionary that is still the empty [{}] of
    [__init__] is [None]. *)
Record analysis : Type := {
  a_file_info : option file_info;
  structure : option structure_info;
  properties : option properties_info;
  geometry_types : list value;
  coordinate_systems : list string;
  statistics : option statistics_info
}.

(** [__init__] *)
Definition init : analysis :=
  {| a_file_info := None; structure := None; properties := None;
     geometry_types := []; coordinate_systems := []; statistics := None |}.

Section with_format.
Context {fmt : Format}.

(** [analyze_structure()]: the new [structure] and [coordinate_systems]
    entries; [None] when the method returns at once. *)
Definition analyze_structure (data : value)
  : result (option (structure_info * list string)) :=
  if negb (truthy data) then Ok None
  else
    ty ← get data "type" VNone;
    hf ← contains "features" data;
    features ← get data "features" (VList []);
    n ← len features;
    hb ← contains "bbox" data;
    hc ← contains "crs" data;
    ks ← keys data;
    let st := {| type_ := ty; has_features := hf; feature_count := n;
                 has_bbox := hb; has_crs := hc; top_level_keys := ks |} in
    has ← contains "crs" data;
    if (has : bool) then crs ← getitem data "crs"; Ok (Some (st, [str crs]))
    else Ok (Some (st, [])).

(** The body of the inner loop of [analyze_properties] for one
    [key, value] pair. *)
Definition tally_step (t : tally) (kv : string * value) : tally :=
  let '(key, val) := kv in
  {| t_all_properties := upsert key S 0 (t_all_properties t);
     t_property_types :=
       upsert key (set_add (type_name val)) [] (t_property_types t);
     t_property_values :=
       upsert key
         (fun l => if decide (length l < 5) then l ++ [str val] else l)
         [] (t_property_values t);
     t_unique_values :=
       upsert key (set_add (str val)) [] (t_unique_values t) |}.

(** The body of the outer loop of [analyze_properties] for one
    feature. *)
Definition tally_feature (t : tally) (feature : value) : result tally :=
  props ← get feature "properties" (VDict []);
  kvs ← items props;
  Ok (foldl tally_step t kvs).

Definition empty_tally : tally :=
  {| t_all_properties := []; t_property_types := [];
     t_property_values := []; t_unique_values := [] |}.

(** The dictionary stored under ['properties'] after the loop. *)
Definition finish (t : tally) : properties_info :=
  {| all_properties :=
       dict_of (sorted_desc (fun x => x.2) (t_all_properties t));
     property_types := t_property_types t;
     sample_values := t_property_values t;
     unique_value_counts :=
       (fun '(k, v) => (k, length v)) <$> t_unique_values t |}.

(** [analyze_properties()]: the new [properties] entry; [None] when the
    method returns at once, leaving the entry as it was. *)
Definition analyze_properties (data : value)
  : result (option properties_info) :=
  if negb (truthy data) then Ok None
  else
    has ← contains "features" data;
    if negb (has : bool) then Ok None
    else
      features ← getitem data "features";
      fs ← iter features;
      t ← foldlM tally_feature empty_tally fs;
      Ok (Some (finish t)).

(** [x == y] between two hashable values: numbers are compared by value,
    whatever their types ([True == 1 == 1.0]); a NaN equals nothing, and two
    parsed NaN are two objects, so that the set keeps both. *)
Definition tag_eqb (x y : value) : bool :=
  match x, y with
  | VNone, VNone => true
  | VStr a, VStr b => bool_decide (a = b)
  | _, _ =>
      match number_of x, number_of y with
      | Some a, Some b => number_eqb a b
      | _, _ => false
      end
  end.

(** [geometry_types.add(x)]: a list or a dict cannot be hashed. *)
Definition tag_add (x : value) (s : list value) : result (list value) :=
  match x with
  | VList _ | VDict _ => Raise TypeError
  | _ => Ok (if existsb (tag_eqb x) s then s else s ++ [x])
  end.

(** The body of the loop of [analyze_geometry] for one feature, on
    [geometry_types] and [coordinate_counts]. *)
Definition geometry_step (acc : list value * list nat) (feature : value)
  : result (list value * list nat) :=
  let '(geometry_types, coordinate_counts) := acc in
  geometry ← get feature "geometry" (VDict []);
  geom_type ← get geometry "type" VNone;
  geometry_types ←
    (if truthy geom_type then tag_add geom_type geometry_types
     else Ok geometry_types);
  coords ← get geometry "coordinates" (VList []);
  Ok (geometry_types,
      if truthy coords
      then coordinate_counts ++ [count_coordinates coords]
      else coordinate_counts).

(** [analyze_geometry()]: the new [geometry_types] and [statistics]
    entries; [None] when the method returns at once. *)
Definition analyze_geometry (data : value)
  : result (option (list value * statistics_info)) :=
  if negb (truthy data) then Ok None
  else
    has ← contains "features" data;
    if negb (has : bool) then Ok None
    else
      features ← getitem data "features";
      fs ← iter features;
      acc ← foldlM geometry_step ([], []) fs;
      again ← getitem data "features";
      n ← len again;
      Ok (Some (acc.1,
                {| coordinate_total := sum_list acc.2;
                   coordinate_features := length acc.2;
                   total_features := n |})).

(** [analyze()]: [None] when loading failed (the method returns [False]),
    the filled [self.analysis] when it returns [True]. *)
Definition analyze (loaded : option value) (meta : file_info)
  : result (option analysis) :=
  match loaded with
  | None => Ok None
  | Some data =>
      st ← analyze_structure data;
      pr ← analyze_properties data;
      ge ← analyze_geometry data;
      Ok (Some {| a_file_info := Some meta;
                  structure := fst <$> st;
                  properties := pr;
                  geometry_types := from_option fst [] ge;
                  coordinate_systems := from_option snd [] st;
                  statistics := snd <$> ge |})
  end.

(** The parts of the Markdown report, each with the data it prints. *)
Inductive section : Type :=
| Header (info : file_info)
| FileInformation (info : file_info)
| StructureOverview (ty : value) (features : nat) (bbox crs : bool)
| TopLevelKeys (keys : list string)
| GeometryTypes (tags : list value)
| Statistics (stats : statistics_info)
| PropertySummary (rows : list (string * nat * list string * nat))
| SampleValues (samples : list (string * list string))
| CoordinateSystems (systems : list string)
| JoinProperties (props : list string)
| DataQualityNotes (features props geometries : nat).

(** [d[key]] on an inner dictionary of [self.analysis] that is filled as
    a whole: a [KeyError] when it is still empty. *)
Definition field {A} (key : string) (d : option A) : result A :=
  match d with
  | Some a => Ok a
  | None => Raise (KeyError key)
  end.

(** [d[key]] on an insertion-ordered dictionary. *)
Definition item {V} (key : string) (d : list (string * V)) : result V :=
  field key (lookup key d).

Definition tag_string (v : value) : option string :=
  match v with VStr s => Some s | _ => None end.

(** [isinstance(v, (bool, int, float))] *)
Definition is_numeric (v : value) : bool :=
  match v with VBool _ | VInt _ | VFloat _ => true | _ => false end.

(** [sorted(geometry_types)]: strings are ordered lexicographically, numbers
    by value, and a single tag needs no comparison; a string cannot be
    compared with a number, nor [None] with anything, which gives
    [TypeError].  Every comparison with a NaN is false and what Python
    returns then depends on the iteration order of the set: such tags are
    left in the order in which they were met. *)
Definition sorted_tags (tags : list value) : result (list value) :=
  match mapM tag_string tags with
  | Some names => Ok (VStr <$> merge_sort String.le names)
  | None =>
      match tags with
      | [_] => Ok tags
      | _ =>
          if forallb is_numeric tags then
            Ok (if forallb (fun v => bool_decide (is_Some (number_of v))) tags
                then merge_sort num_le tags else tags)
          else Raise TypeError
      end
  end.

Definition join_keywords : list string :=
  ["name"; "region"; "province"; "state"; "area"; "id"].

(** [any(word in prop.lower() for word in [...])] *)
Definition is_join_property (prop : string) : bool :=
  existsb (fun word => PyStr.contains word (lower prop)) join_keywords.

(** One row of the property summary table. *)
Definition summary_row (pr : properties_info) (pc : string * nat)
  : result (string * nat * list string * nat) :=
  types ← item pc.1 (property_types pr);
  unique_count ← item pc.1 (unique_value_counts pr);
  Ok (pc.1, pc.2, types, unique_count).

(** [generate_markdown(output_path)]: the report written to the file, in
    the order of the dictionary lookups of the method. *)
Definition generate_markdown (a : analysis) : result (list section) :=
  info ← field "file_path" (a_file_info a);
  st ← field "type" (structure a);
  geometry ←
    (if truthy (VList (geometry_types a)) then
       tags ← sorted_tags (geometry_types a);
       stats ← field "avg_coordinates" (statistics a);
       Ok (GeometryTypes tags ::
           if decide (0 < coordinate_total stats) then [Statistics stats]
           else [])
     else Ok []);
  pr ← field "all_properties" (properties a);
  props ←
    (match all_properties pr with
     | [] => Ok []
     | _ =>
         rows ← mapM (summary_row pr) (all_properties pr);
         Ok [PropertySummary rows; SampleValues (sample_values pr)]
     end);
  let systems :=
    match coordinate_systems a with
    | [] => []
    | l => [CoordinateSystems l]
    end in
  let name_properties :=
    filter (fun prop => is_join_property prop = true)
           (all_properties pr).*1 in
  let joins :=
    match name_properties with
    | [] => []
    | l => [JoinProperties l]
    end in
  Ok ([Header info; FileInformation info;
       StructureOverview (type_ st) (feature_count st) (has_bbox st)
         (has_crs st);
       TopLevelKeys (top_level_keys st)]
      ++ geometry ++ props ++ systems ++ joins
      ++ [DataQualityNotes (feature_count st)
            (length (all_properties pr)) (length (geometry_types a))]).

(** How the process ends: its exit status, the report it wrote if it got
    that far, and the exception that escaped if one did (Python then
    prints a traceback and exits with status 1). *)
Record outcome : Type := {
  exit_status : nat;
  report_file : option (list section);
  traceback : option exn
}.

Definition crashed (report : option (list section)) (e : exn) : outcome :=
  {| exit_status := 1; report_file := report; traceback := Some e |}.

(** The summary [main] prints after the report is written:
    [', '.join(geometry_types)] needs every tag to be a string. *)
Definition print_summary (a : analysis) : result unit :=
  _ ← field "feature_count" (structure a);
  _ ← field "all_properties" (properties a);
  if truthy (VList (geometry_types a)) then
    match mapM tag_string (geometry_types a) with
    | Some _ => Ok tt
    | None => Raise TypeError
    end
  else Ok tt.

(** [main()] *)
Definition main (loaded : option value) (meta : file_info) : outcome :=
  match analyze loaded meta with
  | Raise e => crashed None e
  | Ok None =>
      {| exit_status := 1; report_file := None; traceback := None |}
  | Ok (Some a) =>
      match generate_markdown a with
      | Raise e => crashed None e
      | Ok report =>
          match print_summary a with
          | Raise e => crashed (Some report) e
          | Ok _ =>
              {| exit_status := 0; report_file := Some report;
                 traceback := None |}
          end
      end
  end.
End with_format.

End Analyzer.

(** ** The specification's notions *)

Module Spec.
Import Py.

(** No character of [s] is ASCII whitespace (space, tab, line feed,
    vertical tab, form feed, carriage return). *)
Fixpoint whitespace_free (s : string) : bool :=
  match s with
  | EmptyString => true
  | String a s' => negb (Ascii.is_space a) && whitespace_free s'
  end.

(** The ASCII whitespace characters other than the space. *)
Definition other_whitespace : list ascii :=
  ["009"; "010"; "011"; "012"; "013"]%char.

(** A list of names in lexicographic order, none of them twice. *)
Definition lex_sorted (l : list string) : Prop :=
  StronglySorted String.le l /\ NoDup l.

(** Address resolution in the specification's words: descend into the
    entry for each segment only if the current value is a mapping that
    contains the key; otherwise the address is not found. *)
Fixpoint resolve (segments : list string) (current : value)
  : option value :=
  match segments with
  | [] => Some current
  | segment :: rest =>
      match current with
      | VDict d =>
          match lookup segment d with
          | Some next => resolve rest next
          | None => None
          end
      | _ => None
      end
  end.

(** What [get_nested_value] hands back for a resolution: Python's [None]
    stands for "not found". *)
Definition found_or_none (r : option value) : value :=
  from_option id VNone r.

(** The properties mapping of a feature, [{}] when it has none. *)
Definition properties_of (feature : value) : value :=
  match feature with
  | VDict f => from_option id (VDict []) (lookup "properties" f)
  | _ => VDict []
  end.

(** The output cell for a feature: the stringified value at the address,
    the empty string when there is none. *)
Definition cell `{Format} (path : string) (feature : value) : string :=
  match resolve (PyStr.split "." path) (properties_of feature) with
  | None | Some VNone => ""
  | Some v => str v
  end.

(** A number of the JSON data model: booleans are a type of their own. *)
Definition is_number (v : value) : bool :=
  match v with VInt _ | VFloat _ => true | _ => false end.

(** The coordinate counter in the specification's words: a number
    contributes 1, a sequence the sum over its elements, anything else 0. *)
Fixpoint count_leaves (v : value) : nat :=
  match v with
  | VList l => sum_list (map count_leaves l)
  | _ => if is_number v then 1 else 0
  end.

(** No boolean occurs in [v], at any depth of nested sequences. *)
Fixpoint bool_free (v : value) : bool :=
  match v with
  | VBool _ => false
  | VList l => forallb bool_free l
  | _ => true
  end.

(** The keys in the order of their first appearance in [ks]. *)
Definition first_seen (ks : list string) : list string :=
  foldl (fun seen k => set_add k seen) [] ks.

(** How often [k] appears in [ks]. *)
Definition occurrences (k : string) (ks : list string) : nat :=
  length (filter (fun k' => k' = k) ks).

(** The occurrence table in the specification's words: every key once, in
    the order of first appearance, with the number of its occurrences. *)
Definition occurrence_table (ks : list string) : list (string * nat) :=
  (fun k => (k, occurrences k ks)) <$> first_seen ks.

(** The property keys of one feature, in the order of its mapping. *)
Definition feature_keys (feature : value) : list string :=
  match get feature "properties" (VDict []) ≫= items with
  | Ok kvs => kvs.*1
  | Raise _ => []
  end.

(** Every property key the per-feature pass meets, in the order it meets
    them. *)
Definition key_stream (data : value) : list string :=
  match getitem data "features" ≫= iter with
  | Ok fs => concat (feature_keys <$> fs)
  | Raise _ => []
  end.

(** A collection with one feature, which has no [tags] entry. *)
Definition untagged_collection : value :=
  VDict [("type", VStr "FeatureCollection");
         ("features",
          VList [VDict [("type", VStr "Feature");
                        ("properties", VDict [("name", VStr "Oromia")])]])].

(** Three features: one with an English name tag, one with empty
    properties, one with no properties at all. *)
Definition three_features : list value :=
  [VDict [("properties",
           VDict [("tags", VDict [("name:en", VStr "Oromia")])])];
   VDict [("properties", VDict [])];
   VDict []].

(** A feature whose property [a] is null and one that has no [a]. *)
Definition null_and_missing : list value :=
  [VDict [("properties", VDict [("a", VNone)])];
   VDict [("properties", VDict [])]].


(** Three features with the properties (a, b), (c, b) and (c, d). *)
Definition ranked_collection : value :=
  VDict [("type", VStr "FeatureCollection");
         ("features",
          VList [VDict [("properties", VDict [("a", VInt 1); ("b", VInt 2)])];
                 VDict [("properties", VDict [("c", VInt 3); ("b", VInt 4)])];
                 VDict [("properties",
                         VDict [("c", VInt 5); ("d", VStr "x")])]])].

(** [q] keeps every entry of [p], each sample list only grown at its
    end. *)
Definition extends (p q : list (string * list string)) : Prop :=
  forall key samples,
    lookup key p = Some samples ->
    exists more, lookup key q = Some (samples ++ more).

(** The address of the entry [key] of the mapping found at [current_path]. *)
Definition child_path (current_path key : string) : string :=
  if decide (current_path = "") then key else current_path +:+ "." +:+ key.

(** The values that are not lists, reached through nested lists, left to
    right. *)
Fixpoint leaves (v : value) : list value :=
  match v with
  | VList l => concat (map leaves l)
  | _ => [v]
  end.

(** The feature is an object whose properties, when it has the entry, are a
    mapping. *)
Definition has_mapping_properties (feature : value) : bool :=
  match feature with
  | VDict f => isinstance_dict (properties_of feature)
  | _ => false
  end.

(** The geometry of a feature, [{}] when it has none. *)
Definition geometry_of (feature : value) : value :=
  match feature with
  | VDict f => from_option id (VDict []) (lookup "geometry" f)
  | _ => VDict []
  end.

(** A mapping whose type tag, when it has one, is a string or null. *)
Definition plain_geometry (geometry : value) : bool :=
  match geometry with
  | VDict g =>
      match lookup "type" g with
      | None | Some VNone | Some (VStr _) => true
      | Some _ => false
      end
  | _ => false
  end.

(** A feature as GeoJSON writers produce it: an object with a mapping of
    properties and a geometry object with a string type tag. *)
Definition well_formed_feature (feature : value) : bool :=
  has_mapping_properties feature && plain_geometry (geometry_of feature).

(** Two insertion-ordered dictionaries with the same keys in the same
    order, the values under each key related by [R]. *)
Definition aligned {V W} (R : V -> W -> Prop)
    (d1 : list (string * V)) (d2 : list (string * W)) : Prop :=
  Forall2 (fun a b => a.1 = b.1 /\ R a.2 b.2) d1 d2.

(** What the loop keeps true of its four dictionaries: the keys are
    distinct; under each key the sample list holds [min 5 n] samples for a
    count of [n], and the sets of distinct values and of type names hold
    between one and [n] elements. *)
Definition in_step (t : Analyzer.tally) : Prop :=
  NoDup (Analyzer.t_all_properties t).*1 /\
  aligned (fun n l => length l = n `min` 5)
    (Analyzer.t_all_properties t) (Analyzer.t_property_values t) /\
  aligned (fun n (s : list string) => 1 ≤ length s ≤ n)
    (Analyzer.t_all_properties t) (Analyzer.t_unique_values t) /\
  aligned (fun n (s : list string) => 1 ≤ length s ≤ n)
    (Analyzer.t_all_properties t) (Analyzer.t_property_types t).

(** The byte [a] lies between [lo] and [hi]. *)
Definition byte_in (lo hi : N) (a : ascii) : bool :=
  ((lo <=? N_of_ascii a) && (N_of_ascii a <=? hi))%N.

(** The second byte a three-byte sequence admits after the lead byte [a]:
    no overlong form after [E0], no surrogate ([U+D800] to [U+DFFF]) after
    [ED]. *)
Definition second_of_three (a b : ascii) : bool :=
  byte_in 224 224 a && byte_in 160 191 b
  || byte_in 225 236 a && byte_in 128 191 b
  || byte_in 237 237 a && byte_in 128 159 b
  || byte_in 238 239 a && byte_in 128 191 b.

(** The second byte a four-byte sequence admits after the lead byte [a]:
    no overlong form after [F0], nothing above [U+10FFFF] after [F4]. *)
Definition second_of_four (a b : ascii) : bool :=
  byte_in 240 240 a && byte_in 144 191 b
  || byte_in 241 243 a && byte_in 128 191 b
  || byte_in 244 244 a && byte_in 128 143 b.

(** [s] is the UTF-8 encoding of a text, that is, of a [str] the [utf-8]
    codec can encode: one without a lone surrogate. *)
Fixpoint utf8 (s : string) : bool :=
  match s with
  | EmptyString => true
  | String a s1 =>
      if byte_in 0 127 a then utf8 s1
      else
        match s1 with
        | EmptyString => false
        | String b s2 =>
            if byte_in 194 223 a then byte_in 128 191 b && utf8 s2
            else
              match s2 with
              | EmptyString => false
              | String c s3 =>
                  if byte_in 224 239 a then
                    second_of_three a b && byte_in 128 191 c && utf8 s3
                  else
                    match s3 with
                    | EmptyString => false
                    | String d s4 =>
                        second_of_four a b && byte_in 128 191 c
                        && byte_in 128 191 d && utf8 s4
                    end
              end
        end
  end.

(** Every string of the document [v], key or value at any depth, can be
    encoded. *)
Fixpoint encodable (v : value) : bool :=
  match v with
  | VStr s => utf8 s
  | VList l => forallb encodable l
  | VDict d => forallb (fun kv => utf8 kv.1 && encodable kv.2) d
  | _ => true
  end.

(** Two located features: a point with a name, a polygon without
    properties. *)
Definition located_features : list value :=
  [VDict [("type", VStr "Feature");
          ("properties", VDict [("name", VStr "Afar")]);
          ("geometry",
           VDict [("type", VStr "Point");
                  ("coordinates", VList [VInt 40; VInt 12])])];
   VDict [("type", VStr "Feature");
          ("geometry",
           VDict [("type", VStr "Polygon");
                  ("coordinates",
                   VList [VList [VList [VInt 0; VInt 0];
                                 VList [VInt 1; VInt 0];
                                 VList [VInt 1; VInt 1];
                                 VList [VInt 0; VInt 0]]])])]].

Definition located_collection : value :=
  VDict [("type", VStr "FeatureCollection");
         ("features", VList located_features)].

(** Two features whose geometry types are numbers, the property [a] on
    both and [b] on the second. *)
Definition numbered_collection : value :=
  VDict [("features",
          VList [VDict [("properties", VDict [("a", VInt 1)]);
                        ("geometry", VDict [("type", VInt 2)])];
                 VDict [("properties", VDict [("b", VInt 1); ("a", VInt 1)]);
                        ("geometry",
                         VDict [("type", VFloat 4607182418800017408)])]])].

(** Six features that all carry the property [population]. *)
Definition crowded_collection : value :=
  VDict [("features",
          VList ((fun n => VDict [("properties",
                                   VDict [("population", VInt n)])])
                 <$> [1; 2; 3; 4; 5; 6]%Z))].

(** What [analyze_properties] stores for [ranked_collection]. *)
Definition ranked_profile : Analyzer.properties_info :=
  {| Analyzer.all_properties := [("b", 2); ("c", 2); ("a", 1); ("d", 1)];
     Analyzer.property_types :=
       [("a", ["int"]); ("b", ["int"]); ("c", ["int"]); ("d", ["str"])];
     Analyzer.sample_values :=
       [("a", ["1"]); ("b", ["2"; "4"]); ("c", ["3"; "5"]); ("d", ["x"])];
     Analyzer.unique_value_counts :=
       [("a", 1); ("b", 2); ("c", 2); ("d", 1)] |}.

(** What [analyze_properties] stores for [crowded_collection]. *)
Definition crowded_profile : Analyzer.properties_info :=
  {| Analyzer.all_properties := [("population", 6)];
     Analyzer.property_types := [("population", ["int"])];
     Analyzer.sample_values := [("population", ["1"; "2"; "3"; "4"; "5"])];
     Analyzer.unique_value_counts := [("population", 6)] |}.

(** The properties a report lists in its property summary, each with the
    occurrence count of its row, in the order of the rows. *)
Definition rendered_properties (report : list Analyzer.section)
  : list (string * nat) :=
  report ≫= fun s =>
    match s with
    | Analyzer.PropertySummary rows => (fun r => r.1.1) <$> rows
    | _ => []
    end.

(** The properties a report lists under its sample values, in the order of
    the list. *)
Definition rendered_samples (report : list Analyzer.section) : list string :=
  report ≫= fun s =>
    match s with
    | Analyzer.SampleValues samples => samples.*1
    | _ => []
    end.

(** The key whose lookup fails in [generate_markdown] when the document
    [d] has no feature list. *)
Definition missing_key (d : list (string * value)) : string :=
  match d with
  | [] => "type"
  | _ => "all_properties"
  end.

(** File metadata used where a statement needs a concrete one. *)
Definition sample_file : Analyzer.file_info :=
  {| Analyzer.file_path := "regions.geojson"; Analyzer.file_size := 2048;
     Analyzer.analysis_date := "2024-01-01 00:00:00" |}.

(** A formatting used where a statement needs a concrete one. *)
Definition sample_format : Format :=
  {| float_repr := fun _ => "0.0"; str_repr := fun s => "'" +:+ s +:+ "'" |}.

End Spec.

(** * Properties *)

(** ** Strings *)

Section string_facts.
Import PyStr.

Lemma append_nil (t : string) : "" +:+ t = t.
Proof. reflexivity. Qed.

Lemma append_cons a (s t : string) : String a s +:+ t = String a (s +:+ t).
Proof. reflexivity. Qed.

Lemma prefix_empty (s : string) : String.prefix "" s = true.
Proof. by destruct s. Qed.

Lemma prefix_cons a p b s :
  String.prefix (String a p) (String b s)
  = if decide (a = b) then String.prefix p s else false.
Proof.
  simpl. destruct (ascii_dec a b), (decide (a = b)); congruence.
Qed.

Lemma prefix_split (p s : string) :
  String.prefix p s = true -> exists t, s = p +:+ t.
Proof.
  revert s. induction p as [|a p IH]; intros s Hp.
  - by exists s.
  - destruct s as [|b s]; [done|].
    rewrite prefix_cons in Hp. case_decide; [subst | done].
    destruct (IH _ Hp) as [t ->]. by exists t.
Qed.

Lemma has_char_app c (s t : string) :
  has_char c (s +:+ t) = has_char c s || has_char c t.
Proof.
  induction s as [|a s IH]; [done|].
  rewrite append_cons. simpl. by rewrite IH, orb_assoc.
Qed.

Lemma count_char_app c (s t : string) :
  count_char c (s +:+ t) = count_char c s + count_char c t.
Proof.
  induction s as [|a s IH]; [done|].
  rewrite append_cons. simpl. rewrite IH. lia.
Qed.

Lemma count_char_absent c (s : string) :
  has_char c s = false -> count_char c s = 0.
Proof.
  induction s as [|a s IH]; simpl; [done|].
  intros [Ha Hs]%orb_false_iff. apply bool_decide_eq_false in Ha.
  rewrite IH by done. by case_decide.
Qed.

Lemma length_append (s t : string) :
  String.length (s +:+ t) = String.length s + String.length t.
Proof.
  induction s as [|a s IH]; [done|].
  rewrite append_cons. simpl. by rewrite IH.
Qed.

(** Jumping over the rest of a match. *)
Lemma replace_go_skip old new (p s : string) :
  replace_go old new (String.length p) (p +:+ s) = replace_go old new 0 s.
Proof.
  induction p as [|a p IH]; [done|].
  rewrite append_cons. exact IH.
Qed.

(** One step of the scan at a position where [old] starts. *)
Lemma replace_go_match old new (s : string) :
  old <> "" ->
  replace_go old new 0 (old +:+ s) = new +:+ replace_go old new 0 s.
Proof.
  intros Hne. destruct old as [|a old]; [done|].
  rewrite append_cons. cbn [replace_go].
  assert (String.prefix (String a old) (String a (old +:+ s)) = true) as ->.
  { rewrite prefix_cons, decide_True by done.
    clear. induction old as [|b old IH]; [apply prefix_empty|].
    by rewrite append_cons, prefix_cons, decide_True. }
  replace (String.length (String a old) - 1) with (String.length old)
    by (simpl; lia).
  by rewrite replace_go_skip.
Qed.

(** One step of the scan at a position where [old] does not start. *)
Lemma replace_go_copy old new a (s : string) :
  String.prefix old (String a s) = false ->
  replace_go old new 0 (String a s) = String a (replace_go old new 0 s).
Proof. intros Hp. cbn [replace_go]. by rewrite Hp. Qed.

(** [replace(old, "")] is the leftmost, non-overlapping removal. *)
Lemma replace_removes old (s : string) :
  old <> "" -> removes old s (replace old "" s).
Proof.
  intros Hne. unfold replace. destruct old as [|a0 old0] eqn:Hold; [done|].
  rewrite <-Hold in *. clear Hold a0 old0.
  remember (String.length s) as n eqn:Hn.
  revert s Hn. induction (lt_wf n) as [n _ IH]. intros s ->.
  destruct s as [|a s]; [constructor|].
  destruct (String.prefix old (String a s)) eqn:Hp.
  - destruct (prefix_split _ _ Hp) as [t Ht]. rewrite Ht.
    rewrite replace_go_match, append_nil by done.
    constructor; [done|].
    eapply IH; [|done]. rewrite Ht, length_append.
    destruct old; [done | simpl; lia].
  - rewrite replace_go_copy by done. constructor; [done|].
    eapply IH; [|done]. simpl. lia.
Qed.

Lemma removes_subseq old (s r : string) : removes old s r -> subseq r s.
Proof.
  induction 1 as [|s r _ _ IH|a s r _ _ IH].
  - constructor.
  - induction old as [|b old IHold]; [done|].
    rewrite append_cons. by constructor.
  - by constructor.
Qed.

Lemma removes_count old c (s r : string) :
  has_char c old = false ->
  removes old s r -> count_char c r = count_char c s.
Proof.
  intros Hc. induction 1 as [|s r _ _ IH|a s r _ _ IH]; simpl.
  - done.
  - rewrite count_char_app, (count_char_absent c old) by done. exact IH.
  - by rewrite IH.
Qed.

Lemma remove_char_subseq c (s : string) : subseq (remove_char c s) s.
Proof.
  induction s as [|a s IH]; simpl; [constructor|].
  case_decide; by constructor.
Qed.

Lemma subseq_trans (r s t : string) : subseq r s -> subseq s t -> subseq r t.
Proof.
  intros Hrs Hst. revert r Hrs.
  induction Hst as [|a s t _ IH|a s t _ IH]; intros r Hrs.
  - done.
  - constructor. by apply IH.
  - inversion Hrs; subst; constructor; by apply IH.
Qed.

Lemma remove_char_count c c' (s : string) :
  c' <> c -> count_char c' (remove_char c s) = count_char c' s.
Proof.
  intros Hne. induction s as [|a s IH]; simpl; [done|].
  repeat case_decide; simpl; repeat case_decide; subst; try done; lia.
Qed.

Lemma has_char_remove_char c (s : string) :
  has_char c (remove_char c s) = false.
Proof.
  induction s as [|a s IH]; simpl; [done|].
  case_decide; [done|]. simpl. rewrite IH.
  by rewrite bool_decide_eq_false_2.
Qed.

(** Replacing a single character by nothing deletes it everywhere. *)
Lemma replace_char c (s : string) :
  replace (String c "") "" s = remove_char c s.
Proof.
  unfold replace. induction s as [|a s IH]; [done|].
  cbn [replace_go remove_char]. rewrite prefix_cons, prefix_empty.
  destruct (decide (c = a)) as [->|Hne].
  - rewrite decide_True by done. simpl. exact IH.
  - rewrite decide_False by congruence. by rewrite IH.
Qed.

(** A pattern with a character that [s] lacks occurs nowhere in [s]. *)
Lemma replace_absent old new c (s : string) :
  has_char c old = true -> has_char c s = false -> replace old new s = s.
Proof.
  intros Hold Hs. unfold replace. destruct old as [|a0 old0] eqn:Eold; [done|].
  rewrite <-Eold in *. clear Eold a0 old0.
  induction s as [|a s IH]; [done|].
  simpl in Hs. apply orb_false_iff in Hs as [Ha Hs].
  rewrite replace_go_copy, IH; [done..|].
  destruct (String.prefix old (String a s)) eqn:Hp; [|done].
  destruct (prefix_split _ _ Hp) as [t Ht].
  assert (has_char c (String a s) = true) as Hin.
  { rewrite Ht, has_char_app, Hold. done. }
  simpl in Hin. by rewrite Ha, Hs in Hin.
Qed.
End string_facts.

(** ** The Name Reconciler *)

Section name_reconciler.
Import PyStr Py CheckNames.

Example normalize_addis : normalize "Addis Ababa" = "AddisAbaba".
Proof. reflexivity. Qed.

Example normalize_amhara : normalize "Amhara Region Province" = "AmharaRegion".
Proof. reflexivity. Qed.

(** The suffixes are matched with their capitals only. *)
Example normalize_case_sensitive :
  normalize "Bale province" = "Baleprovince".
Proof. reflexivity. Qed.

(** A suffix that only appears once another one is deleted stays. *)
Example normalize_single_pass :
  normalize "Gamo Prov Provinceince" = "GamoProvince".
Proof. reflexivity. Qed.

Lemma normalize_unfold (s : string) :
  normalize s
  = remove_char " " (replace " County" "" (replace " Province" "" s)).
Proof. unfold normalize. apply (replace_char " "). Qed.

Lemma normalize_no_space (s : string) : has_char " " (normalize s) = false.
Proof. rewrite normalize_unfold. apply has_char_remove_char. Qed.

Lemma remove_char_absent c (s : string) :
  has_char c s = false -> remove_char c s = s.
Proof.
  induction s as [|a s IH]; simpl; [done|].
  intros [Ha Hs]%orb_false_iff. apply bool_decide_eq_false in Ha.
  rewrite decide_False by done. by rewrite IH.
Qed.

(** C1, as the specification words it, fails: a tab is whitespace and
    survives normalization, since only the space character is replaced. *)
Lemma normalize_keeps_tab :
  normalize ("a" +:+ String "009" "b") = "a" +:+ String "009" "b" /\
  Spec.whitespace_free (normalize ("a" +:+ String "009" "b")) = false.
Proof. split; reflexivity. Qed.

(** C1 (amended): normalization deletes, in one left-to-right scan each and
    in this order, the non-overlapping occurrences of [" Province"], those
    of [" County"], and then every space character.  The result has no
    space, is the input with characters deleted and none rewritten (so no
    case is folded), and keeps every tab, line feed, vertical tab, form
    feed and carriage return of the input. *)
Theorem normalize_suffixes_then_spaces (s : string) :
  exists r1 r2,
    removes " Province" s r1 /\
    removes " County" r1 r2 /\
    normalize s = remove_char " " r2 /\
    has_char " " (normalize s) = false /\
    subseq (normalize s) s /\
    Forall (fun c => count_char c (normalize s) = count_char c s)
           Spec.other_whitespace.
Proof.
  exists (replace " Province" "" s),
         (replace " County" "" (replace " Province" "" s)).
  assert (removes " Province" s (replace " Province" "" s)) as H1
    by by apply replace_removes.
  assert (removes " County" (replace " Province" "" s)
            (replace " County" "" (replace " Province" "" s))) as H2
    by by apply replace_removes.
  split_and!; try done.
  - apply normalize_unfold.
  - apply normalize_no_space.
  - rewrite normalize_unfold.
    eapply subseq_trans; [apply remove_char_subseq|].
    eapply subseq_trans; eapply removes_subseq; eassumption.
  - rewrite normalize_unfold. unfold Spec.other_whitespace.
    assert (forall c, has_char c " Province County" = false ->
              count_char c (remove_char " "
                (replace " County" "" (replace " Province" "" s)))
              = count_char c s) as Hkeep.
    { intros c Hc.
      assert (c <> " "%char) as Hsp by (by intros ->).
      assert (has_char c " Province" = false /\
              has_char c " County" = false) as [Hp Hy].
      { change " Province County" with (" Province" +:+ " County") in Hc.
        rewrite has_char_app in Hc. by apply orb_false_iff in Hc. }
      rewrite remove_char_count by done.
      rewrite (removes_count _ _ _ _ Hy H2).
      exact (removes_count _ _ _ _ Hp H1). }
    repeat (apply Forall_cons; split; [by apply Hkeep|]).
    apply Forall_nil_2.
Qed.

(** C6: normalizing twice is normalizing once.  The result of the first
    pass has no space, both suffixes start with one, and so the second pass
    finds nothing to delete. *)
Theorem normalize_idempotent (s : string) :
  normalize (normalize s) = normalize s.
Proof.
  pose proof (normalize_no_space s) as Hs.
  rewrite (normalize_unfold (normalize s)).
  rewrite (replace_absent " Province" "" " " (normalize s)) by done.
  rewrite (replace_absent " County" "" " " (normalize s)) by done.
  by apply remove_char_absent.
Qed.

Lemma sorted_elem_of (X : gset string) (x : string) :
  x ∈ sorted X <-> x ∈ X.
Proof.
  unfold sorted. by rewrite merge_sort_Permutation, elem_of_elements.
Qed.

Lemma sorted_lex_sorted (X : gset string) : Spec.lex_sorted (sorted X).
Proof.
  split.
  - apply StronglySorted_merge_sort; apply _.
  - unfold sorted. rewrite merge_sort_Permutation. apply NoDup_elements.
Qed.

(** Python sorts with another algorithm; on a set the result is the same,
    because a duplicate-free list has one sorted arrangement only. *)
Lemma sorted_unique (X : gset string) (l : list string) :
  l ≡ₚ elements X -> Sorted String.le l -> l = sorted X.
Proof.
  intros Hperm Hl. apply (Sorted_unique String.le); [done| |].
  - apply Sorted_merge_sort; apply _.
  - unfold sorted. by rewrite merge_sort_Permutation.
Qed.

(** One feature and one CSV row, both named "Addis Ababa". *)
Example check_names_match :
  check_names
    (VDict [("features",
             VList [VDict [("properties",
                            VDict [("tags",
                                    VDict [("name:en", VStr "Addis Ababa")])])]])])
    [VDict [("name", VStr "Addis Ababa")]]
  = Ok {| geojson_not_in_csv := []; csv_not_in_geojson := [];
          present_in_both := ["AddisAbaba"] |}.
Proof. vm_compute. reflexivity. Qed.

(** A feature without a name contributes the empty string; a CSV without
    rows contributes nothing. *)
Example check_names_empty_csv :
  check_names
    (VDict [("features",
             VList [VDict [("properties", VDict [])];
                    VDict [("properties",
                            VDict [("tags",
                                    VDict [("name:en", VStr "Afar Province")])])]])])
    []
  = Ok {| geojson_not_in_csv := [""; "Afar"]; csv_not_in_geojson := [];
          present_in_both := [] |}.
Proof. vm_compute. reflexivity. Qed.

(** A CSV without a [name] column ends the script with a [KeyError]. *)
Example check_names_no_column :
  check_names (VDict [("features", VList [])]) [VDict [("title", VStr "Afar")]]
  = Raise (KeyError "name").
Proof. vm_compute. reflexivity. Qed.

Example compare_names_example :
  compare_names {[ "AddisAbaba"; "Oromia"; "" ]} {[ "Oromia"; "Afar" ]}
  = {| geojson_not_in_csv := [""; "AddisAbaba"];
       csv_not_in_geojson := ["Afar"];
       present_in_both := ["Oromia"] |}.
Proof. vm_compute. reflexivity. Qed.

(** C5: the three lists the reconciler prints hold exactly the names of
    A - B, B - A and A ∩ B; no name is in two of them, a name is in one of
    them exactly when it is in A ∪ B, and each list is in lexicographic
    order without repetition. *)
Theorem compare_names_partition (A B : gset string) :
  let r := compare_names A B in
  (forall x, x ∈ geojson_not_in_csv r <-> x ∈ A ∖ B) /\
  (forall x, x ∈ csv_not_in_geojson r <-> x ∈ B ∖ A) /\
  (forall x, x ∈ present_in_both r <-> x ∈ A ∩ B) /\
  (forall x, ~ (x ∈ geojson_not_in_csv r /\ x ∈ csv_not_in_geojson r)) /\
  (forall x, ~ (x ∈ geojson_not_in_csv r /\ x ∈ present_in_both r)) /\
  (forall x, ~ (x ∈ csv_not_in_geojson r /\ x ∈ present_in_both r)) /\
  (forall x, x ∈ geojson_not_in_csv r \/ x ∈ csv_not_in_geojson r \/
             x ∈ present_in_both r <-> x ∈ A ∪ B) /\
  Spec.lex_sorted (geojson_not_in_csv r) /\
  Spec.lex_sorted (csv_not_in_geojson r) /\
  Spec.lex_sorted (present_in_both r).
Proof.
  simpl. split_and!; try apply sorted_lex_sorted;
    intros x; rewrite ?sorted_elem_of; try done.
  - set_solver.
  - set_solver.
  - set_solver.
  - destruct (decide (x ∈ A)), (decide (x ∈ B)); set_solver.
Qed.
End name_reconciler.

(** ** The Nested Path Extractor *)

Section extractor.
Import Py Extractor.
Context {fmt : Format}.

Example extract_oromia :
  extract_one "tags.name:en"
    (VDict [("properties", VDict [("tags", VDict [("name:en", VStr "Oromia")])])])
  = Ok "Oromia".
Proof. reflexivity. Qed.

(** A null value and a missing one give the same two rows. *)
Example extract_null_and_missing :
  extract_values (VDict [("features", VList Spec.null_and_missing)]) "a"
  = Ok [""; ""].
Proof. reflexivity. Qed.

Example extract_missing :
  extract_one "tags.name:en" (VDict [("properties", VDict [])]) = Ok "".
Proof. reflexivity. Qed.

Lemma split_nonempty sep (s : string) : PyStr.split sep s <> [].
Proof.
  destruct s as [|a s]; simpl; [done|].
  case_decide; [done|]. by destruct (PyStr.split sep s).
Qed.

(** Joining the segments with the separator gives the address back. *)
Lemma split_join sep (s : string) :
  String.concat (String sep "") (PyStr.split sep s) = s.
Proof.
  induction s as [|a s IH]; [done|]. simpl.
  pose proof (split_nonempty sep s) as Hne.
  destruct (decide (a = sep)) as [->|Ha].
  - destruct (PyStr.split sep s) as [|w ws]; [done|].
    change (String sep (String.concat (String sep "") (w :: ws)) = String sep s).
    by rewrite IH.
  - destruct (PyStr.split sep s) as [|w ws]; [done|].
    destruct ws as [|w' ws]; simpl in *; by rewrite <-IH.
Qed.

(** No segment contains the separator. *)
Lemma split_no_sep sep (s : string) :
  Forall (fun w => PyStr.has_char sep w = false) (PyStr.split sep s).
Proof.
  induction s as [|a s IH]; simpl; [by repeat constructor|].
  case_decide; [by constructor|].
  pose proof (split_nonempty sep s) as Hne.
  destruct (PyStr.split sep s) as [|w ws]; [done|].
  inversion IH; subst. constructor; [|done].
  simpl. by rewrite bool_decide_eq_false_2.
Qed.

(** The loop follows the specification's resolution and raises nothing. *)
Lemma walk_resolve keys (obj : value) :
  walk keys obj = Ok (Spec.found_or_none (Spec.resolve keys obj)).
Proof.
  revert obj. induction keys as [|key rest IH]; intros obj; [done|].
  destruct obj; try done. simpl.
  destruct (lookup key d) as [next|]; simpl; [apply IH | done].
Qed.

(** C3: [get_nested_value] splits the address on the dots and follows the
    specification's resolution; for every object and every address it
    returns a value, [None] standing for "not found", and never raises:
    the loop itself raises nothing, so the [except] clause is never the
    one that answers.  Being a function of its two arguments, it gives the
    same result on the same input. *)
Theorem get_nested_value_total (obj : value) (path : string) :
  String.concat "." (PyStr.split "." path) = path /\
  Forall (fun w => PyStr.has_char "." w = false) (PyStr.split "." path) /\
  walk (PyStr.split "." path) obj
  = Ok (Spec.found_or_none (Spec.resolve (PyStr.split "." path) obj)) /\
  get_nested_value obj path
  = Ok (Spec.found_or_none (Spec.resolve (PyStr.split "." path) obj)).
Proof.
  split_and!.
  - apply (split_join ".").
  - apply split_no_sep.
  - apply walk_resolve.
  - unfold get_nested_value. by rewrite walk_resolve.
Qed.

(** What the guards of the methods see on a document with a feature
    list. *)
Lemma collection_shape d (fs : list value) :
  lookup "features" d = Some (VList fs) ->
  truthy (VDict d) = true /\
  contains "features" (VDict d) = Ok true /\
  getitem (VDict d) "features" = Ok (VList fs).
Proof.
  intros Hl. split_and!.
  - by destruct d.
  - simpl. by rewrite Hl.
  - simpl. by rewrite Hl.
Qed.

Lemma extract_one_cell f (path : string) :
  extract_one path (VDict f) = Ok (Spec.cell path (VDict f)).
Proof.
  unfold extract_one, Spec.cell, get_nested_value. simpl.
  rewrite walk_resolve. simpl.
  by destruct (Spec.resolve _ _) as [[]|].
Qed.







(** C2, at a collection whose only feature has no [tags]: the address
    resolves on no feature, the single output value is the empty string,
    and yet [run] writes the CSV file and returns [True], so that [main]
    ends with status 0. *)
Theorem run_succeeds_when_nothing_resolves :
  Spec.resolve (PyStr.split "." "tags.name:en")
    (VDict [("name", VStr "Oromia")]) = None /\
  extract_values Spec.untagged_collection "tags.name:en" = Ok [""] /\
  run (Some Spec.untagged_collection) "tags.name:en"
  = Ok {| returned := true; csv_file := Some [["value"]; [""]] |} /\
  main (Some Spec.untagged_collection) "tags.name:en" = Ok 0.
Proof. split_and!; reflexivity. Qed.
End extractor.



(** ** The Schema Analyzer *)

Section analyzer.
Import Py Analyzer.
Context {fmt : Format}.

(** Induction on values that reaches the elements of lists and the values of
    dictionaries. *)
Lemma value_nested_ind (P : value -> Prop) :
  P VNone ->
  (forall b, P (VBool b)) ->
  (forall z, P (VInt z)) ->
  (forall bits, P (VFloat bits)) ->
  (forall s, P (VStr s)) ->
  (forall l, Forall P l -> P (VList l)) ->
  (forall d, Forall (fun kv => P kv.2) d -> P (VDict d)) ->
  forall v, P v.
Proof.
  intros HN HB HI HF HS HL HD.
  fix IH 1. intros [| b | z | bits | s | l | d].
  - exact HN.
  - apply HB.
  - apply HI.
  - apply HF.
  - apply HS.
  - apply HL. induction l as [|x l IHl]; constructor; [apply IH | exact IHl].
  - apply HD. induction d as [|[k x] d IHd]; constructor;
      [apply IH | exact IHd].
Qed.

Example count_polygon :
  count_coordinates
    (VList [VList [VList [VInt 0; VInt 0]; VList [VInt 1; VInt 0];
                   VList [VInt 1; VInt 1]; VList [VInt 0; VInt 0]]])
  = 8.
Proof. reflexivity. Qed.

(** C8, as the specification words it, fails: a boolean is neither a number
    nor a sequence of the data model, and the counter gives it 1, because
    [isinstance(True, (int, float))] holds in Python. *)
Lemma count_coordinates_counts_booleans :
  Spec.is_number (VBool true) = false /\
  isinstance_list (VBool true) = false /\
  count_coordinates (VBool true) = 1 /\
  count_coordinates (VBool true) <> Spec.count_leaves (VBool true).
Proof. split_and!; done. Qed.

(** C8 (amended): on a structure that holds no boolean the counter is the
    one of the specification: an integer or a float counts 1, a sequence the
    sum over its elements, and null, a string or a mapping 0.  In particular
    [[1,2],[3,4]] counts 4, [1,2] counts 2, and [] counts 0, which is also
    what a geometry without coordinates is given. *)
Theorem count_coordinates_numeric_leaves :
  (forall v, Spec.bool_free v = true ->
             count_coordinates v = Spec.count_leaves v) /\
  count_coordinates (VList [VList [VInt 1; VInt 2]; VList [VInt 3; VInt 4]])
  = 4 /\
  count_coordinates (VList [VInt 1; VInt 2]) = 2 /\
  count_coordinates (VList []) = 0 /\
  (c ← get (VDict [("type", VStr "Point")]) "coordinates" (VList []);
   Ok (count_coordinates c)) = Ok 0.
Proof.
  split_and!; try reflexivity.
  intros v. induction v as [| b | z | bits | s | l IH | d _]
    using value_nested_ind; intros Hv; try done.
  simpl in *. f_equal.
  induction IH as [|x l Hx _ IHl]; [done|].
  simpl in Hv. apply andb_true_iff in Hv as [Hv1 Hv2].
  simpl. by rewrite Hx, IHl.
Qed.

(** [key in d] and [d[key]] agree on a dictionary. *)
Lemma contains_getitem d (key : string) :
  exists b, contains key (VDict d) = Ok b /\
            (b = true -> exists x, getitem (VDict d) key = Ok x).
Proof.
  simpl. destruct (lookup key d) as [x|]; eexists; split; try done.
  by exists x.
Qed.

(** On an object without a [features] entry the structure pass succeeds. *)
Lemma analyze_structure_without_features d :
  d <> [] ->
  lookup "features" d = None ->
  exists st, analyze_structure (VDict d) = Ok (Some st).
Proof.
  intros Hd Hl. unfold analyze_structure.
  assert (truthy (VDict d) = true) as -> by by destruct d.
  cbn -[lookup]. rewrite Hl. cbn -[lookup].
  destruct (lookup "crs" d) as [crs|]; cbn; by eexists.
Qed.

Lemma analyze_properties_without_features d :
  lookup "features" d = None -> analyze_properties (VDict d) = Ok None.
Proof.
  intros Hl. unfold analyze_properties.
  destruct (truthy (VDict d)); [|done]. cbn -[lookup]. by rewrite Hl.
Qed.

Lemma analyze_geometry_without_features d :
  lookup "features" d = None -> analyze_geometry (VDict d) = Ok None.
Proof.
  intros Hl. unfold analyze_geometry.
  destruct (truthy (VDict d)); [|done]. cbn -[lookup]. by rewrite Hl.
Qed.

(** For a JSON object without a [features] entry, [analyze] succeeds and
    leaves the properties aggregate empty, [generate_markdown] then raises a
    [KeyError], and [main] ends with that exception uncaught and no report
    written.  The key is ['all_properties'], looked up in the empty
    properties aggregate; for the empty object [{}] the structure aggregate
    is empty as well and its ['type'] lookup fails first. *)
Lemma object_without_features_key_error d (meta : file_info) :
  lookup "features" d = None ->
  (exists a,
     analyze (Some (VDict d)) meta = Ok (Some a) /\
     properties a = None /\
     generate_markdown a = Raise (KeyError (Spec.missing_key d))) /\
  main (Some (VDict d)) meta
  = {| exit_status := 1; report_file := None;
       traceback := Some (KeyError (Spec.missing_key d)) |}.
Proof.
  intros Hl.
  assert (exists a,
            analyze (Some (VDict d)) meta = Ok (Some a) /\
            properties a = None /\
            generate_markdown a = Raise (KeyError (Spec.missing_key d)))
    as (a & Ha & Hp & Hg).
  { unfold analyze.
    rewrite analyze_properties_without_features,
      analyze_geometry_without_features by done.
    destruct (decide (d = [])) as [->|Hd].
    - eexists. split_and!; reflexivity.
    - destruct (analyze_structure_without_features d Hd Hl) as [st ->].
      eexists. split_and!; [reflexivity..|].
      by destruct d. }
  split; [by exists a|].
  unfold main. by rewrite Ha, Hg.
Qed.

(** C9 (amended): a document without a [features] key yields no report and
    ends [main] with an uncaught exception instead of a clean exit.  For a
    non-empty JSON object it is the [KeyError] the claim describes: [analyze]
    succeeds, the properties aggregate is left without ['all_properties'],
    and [generate_markdown] fails when it indexes it.  For a document that
    is false in Python's sense (null, [false], 0, an empty string, array or
    object) the structure aggregate is empty as well and its ['type'] lookup
    fails first.  Any other document that is not an object ends in the
    [AttributeError] that [analyze_structure] raises, before any rendering. *)
Theorem missing_features_uncaught (meta : file_info) :
  (forall d,
     d <> [] ->
     lookup "features" d = None ->
     (exists a,
        analyze (Some (VDict d)) meta = Ok (Some a) /\
        properties a = None /\
        generate_markdown a = Raise (KeyError "all_properties")) /\
     main (Some (VDict d)) meta
     = {| exit_status := 1; report_file := None;
          traceback := Some (KeyError "all_properties") |}) /\
  (forall data,
     truthy data = false ->
     main (Some data) meta
     = {| exit_status := 1; report_file := None;
          traceback := Some (KeyError "type") |}) /\
  (forall data,
     truthy data = true ->
     isinstance_dict data = false ->
     main (Some data) meta
     = {| exit_status := 1; report_file := None;
          traceback := Some AttributeError |}).
Proof.
  split_and!.
  - intros d Hd Hl.
    pose proof (object_without_features_key_error d meta Hl) as Hkey.
    by destruct d.
  - intros data Hd.
    unfold main, analyze, analyze_structure, analyze_properties,
      analyze_geometry.
    by rewrite Hd.
  - intros data Ht Hd. unfold main, analyze, analyze_structure. rewrite Ht.
    by destruct data.
Qed.

(** *** The stable descending sort *)

Lemma insert_desc_perm {A} (key : A -> nat) x (l : list A) :
  insert_desc key x l ≡ₚ x :: l.
Proof.
  induction l as [|y l IH]; simpl; [done|].
  case_decide; [done|]. by rewrite IH, Permutation_swap.
Qed.

Lemma sorted_desc_perm {A} (key : A -> nat) (l : list A) :
  sorted_desc key l ≡ₚ l.
Proof.
  induction l as [|x l IH]; simpl; [done|].
  by rewrite insert_desc_perm, IH.
Qed.

Lemma insert_desc_sorted {A} (key : A -> nat) x (l : list A) :
  StronglySorted (fun a b => key b ≤ key a) l ->
  StronglySorted (fun a b => key b ≤ key a) (insert_desc key x l).
Proof.
  induction 1 as [|y l Hl IH Hy]; simpl; [by repeat constructor|].
  case_decide as Hyx.
  - constructor; [by constructor|].
    constructor; [done|].
    eapply Forall_impl; [exact Hy|]. simpl. lia.
  - constructor; [done|].
    rewrite insert_desc_perm. constructor; [lia | done].
Qed.

Lemma sorted_desc_sorted {A} (key : A -> nat) (l : list A) :
  StronglySorted (fun a b => key b ≤ key a) (sorted_desc key l).
Proof.
  induction l as [|x l IH]; simpl; [constructor|].
  by apply insert_desc_sorted.
Qed.

(** Elements with the same key are not reordered. *)
Lemma insert_desc_stable {A} (key : A -> nat) (c : nat) x (l : list A) :
  filter (fun a => key a = c) (insert_desc key x l)
  = filter (fun a => key a = c) (x :: l).
Proof.
  induction l as [|y l IH]; simpl; [done|].
  case_decide as Hyx; [done|].
  rewrite filter_cons, IH, !filter_cons.
  repeat case_decide; try done. lia.
Qed.

Lemma sorted_desc_stable {A} (key : A -> nat) (c : nat) (l : list A) :
  filter (fun a => key a = c) (sorted_desc key l)
  = filter (fun a => key a = c) l.
Proof.
  induction l as [|x l IH]; simpl; [done|].
  by rewrite insert_desc_stable, !filter_cons, IH.
Qed.

(** *** Insertion-ordered dictionaries *)

Lemma upsert_fresh {V} (key : string) (f : V -> V) dflt
    (d : list (string * V)) :
  key ∉ d.*1 -> upsert key f dflt d = d ++ [(key, f dflt)].
Proof.
  induction d as [|[k v] d IH]; simpl; [done|].
  intros Hk. apply not_elem_of_cons in Hk as [Hne Hk].
  rewrite decide_False by done. by rewrite IH.
Qed.

(** [dict(pairs)] keeps a list of pairs with distinct keys as it is. *)
Lemma dict_of_nodup {V} (pairs : list (string * V)) :
  NoDup pairs.*1 -> dict_of pairs = pairs.
Proof.
  unfold dict_of. intros Hnd.
  enough (forall acc : list (string * V),
             NoDup (acc.*1 ++ pairs.*1) ->
             foldl (fun d '(k, v) => upsert k (fun _ => v) v d) acc pairs
             = acc ++ pairs) as Hgen by (by apply (Hgen [])).
  clear Hnd. induction pairs as [|[k v] pairs IH]; intros acc Hnd; simpl.
  - by rewrite app_nil_r.
  - rewrite upsert_fresh.
    + rewrite IH; [by rewrite <-app_assoc|].
      rewrite fmap_app. simpl. by rewrite <-app_assoc.
    + simpl in Hnd. apply NoDup_app in Hnd as (_ & Hnd & _).
      intros Hin. apply (Hnd k Hin). by left.
Qed.

(** *** Counting keys in the order they are met *)

Lemma set_add_elem_of (x k : string) (s : list string) :
  x ∈ set_add k s <-> x = k \/ x ∈ s.
Proof.
  unfold set_add. case_decide as Hk.
  - split; [by right|]. by intros [->|].
  - rewrite elem_of_app, list_elem_of_singleton. tauto.
Qed.

Lemma first_seen_snoc (ks : list string) (k : string) :
  Spec.first_seen (ks ++ [k]) = set_add k (Spec.first_seen ks).
Proof. unfold Spec.first_seen. by rewrite foldl_snoc. Qed.

Lemma first_seen_elem_of (k : string) (ks : list string) :
  k ∈ Spec.first_seen ks <-> k ∈ ks.
Proof.
  induction ks as [|k' ks IH] using rev_ind; [done|].
  rewrite first_seen_snoc, set_add_elem_of, elem_of_app,
    list_elem_of_singleton, IH.
  tauto.
Qed.

Lemma first_seen_nodup (ks : list string) : NoDup (Spec.first_seen ks).
Proof.
  induction ks as [|k ks IH] using rev_ind; [constructor|].
  rewrite first_seen_snoc. unfold set_add. case_decide as Hk; [done|].
  apply NoDup_app. split_and!; [done| |apply NoDup_singleton].
  intros x Hx ->%list_elem_of_singleton. done.
Qed.

Lemma occurrences_snoc (k k' : string) (ks : list string) :
  Spec.occurrences k (ks ++ [k'])
  = Spec.occurrences k ks + (if decide (k' = k) then 1 else 0).
Proof.
  unfold Spec.occurrences. rewrite filter_app, length_app. f_equal.
  rewrite filter_cons, filter_nil. by case_decide.
Qed.

Lemma occurrences_absent (k : string) (ks : list string) :
  k ∉ ks -> Spec.occurrences k ks = 0.
Proof.
  unfold Spec.occurrences. induction ks as [|k' ks IH]; [done|].
  intros [Hne Hk]%not_elem_of_cons.
  rewrite filter_cons, decide_False by done. by apply IH.
Qed.

(** Counting a key already in the table changes its entry in place. *)
Lemma upsert_table_seen (g : string -> nat) (k : string) (l : list string) :
  NoDup l -> k ∈ l ->
  upsert k S 0 ((fun k' => (k', g k')) <$> l)
  = (fun k' => (k', if decide (k' = k) then S (g k') else g k')) <$> l.
Proof.
  induction 1 as [|k0 l Hk0 Hnd IH]; intros Hk; [by inversion Hk|].
  simpl. destruct (decide (k0 = k)) as [->|Hne].
  - f_equal. apply Forall_fmap_ext_1, Forall_forall. intros k' Hk'.
    rewrite decide_False; [done|]. by intros ->.
  - f_equal. apply IH. by inversion Hk; subst.
Qed.

(** The loop's table of counts is the occurrence table of the keys met. *)
Lemma count_keys_table (ks : list string) :
  foldl (fun d k => upsert k S 0 d) [] ks = Spec.occurrence_table ks.
Proof.
  unfold Spec.occurrence_table.
  induction ks as [|k ks IH] using rev_ind; [done|].
  rewrite foldl_snoc, IH, first_seen_snoc. unfold set_add.
  case_decide as Hk.
  - rewrite upsert_table_seen by auto using first_seen_nodup.
    apply Forall_fmap_ext_1, Forall_forall. intros k' _.
    rewrite occurrences_snoc. f_equal.
    destruct (decide (k' = k)) as [->|Hne].
    + rewrite decide_True by done. lia.
    + rewrite decide_False by congruence. lia.
  - rewrite upsert_fresh.
    + rewrite fmap_app. simpl. f_equal.
      * apply Forall_fmap_ext_1, Forall_forall. intros k' Hk'.
        rewrite occurrences_snoc, decide_False; [by rewrite Nat.add_0_r|].
        by intros ->.
      * rewrite occurrences_snoc, decide_True by done.
        rewrite occurrences_absent; [done|]. by rewrite <-first_seen_elem_of.
    + rewrite <-list_fmap_compose. simpl.
      by rewrite list_fmap_id.
Qed.

Lemma occurrence_table_keys (ks : list string) :
  (Spec.occurrence_table ks).*1 = Spec.first_seen ks.
Proof.
  unfold Spec.occurrence_table. rewrite <-list_fmap_compose.
  apply list_fmap_id.
Qed.

(** *** The property ranking *)

(** Two of three features carry an integer [population]. *)
Example population_profile :
  analyze_properties
    (VDict [("features",
             VList [VDict [("properties", VDict [("population", VInt 10)])];
                    VDict [("properties", VDict [])];
                    VDict [("properties", VDict [("population", VInt 25)])]])])
  = Ok (Some {| all_properties := [("population", 2)];
                property_types := [("population", ["int"])];
                sample_values := [("population", ["10"; "25"])];
                unique_value_counts := [("population", 2)] |}).
Proof. reflexivity. Qed.

Lemma tally_step_counts (t : tally) (kvs : list (string * value)) :
  t_all_properties (foldl tally_step t kvs)
  = foldl (fun d k => upsert k S 0 d) (t_all_properties t) kvs.*1.
Proof.
  revert t. induction kvs as [|[k v] kvs IH]; intros t; [done|].
  simpl. by rewrite IH.
Qed.

Lemma tally_feature_counts (f : value) (t t' : tally) :
  tally_feature t f = Ok t' ->
  t_all_properties t'
  = foldl (fun d k => upsert k S 0 d) (t_all_properties t)
          (Spec.feature_keys f).
Proof.
  unfold tally_feature, Spec.feature_keys.
  destruct (get f "properties" (VDict [])) as [props|]; [|done]. simpl.
  destruct (items props) as [kvs|]; [|done]. simpl.
  intros [= <-]. apply tally_step_counts.
Qed.

Lemma tally_features_counts (fs : list value) (t t' : tally) :
  foldlM tally_feature t fs = Ok t' ->
  t_all_properties t'
  = foldl (fun d k => upsert k S 0 d) (t_all_properties t)
          (concat (Spec.feature_keys <$> fs)).
Proof.
  revert t. induction fs as [|f fs IH]; intros t Hfold.
  - by injection Hfold as <-.
  - simpl in Hfold.
    destruct (tally_feature t f) as [t1|] eqn:Hstep; [|done].
    simpl in Hfold. cbn [fmap list_fmap concat].
    by rewrite foldl_app, (IH _ Hfold), (tally_feature_counts _ _ _ Hstep).
Qed.

(** What [analyze_properties] stores under ['all_properties']. *)
Lemma analyze_properties_ranking (data : value) (pr : properties_info) :
  analyze_properties data = Ok (Some pr) ->
  all_properties pr
  = sorted_desc (fun x => x.2)
      (Spec.occurrence_table (Spec.key_stream data)).
Proof.
  unfold analyze_properties, Spec.key_stream. intros Hpr.
  destruct (truthy data); [|done]. simpl in Hpr.
  destruct (contains "features" data) as [[]|]; try done. simpl in Hpr.
  destruct (getitem data "features") as [features|]; [|done].
  simpl in Hpr |- *.
  destruct (iter features) as [fs|]; [|done]. simpl in Hpr.
  destruct (foldlM tally_feature empty_tally fs) as [t|] eqn:Ht; [|done].
  simpl in Hpr. injection Hpr as <-.
  apply tally_features_counts in Ht. simpl in Ht.
  rewrite count_keys_table in Ht.
  unfold finish. cbn [all_properties]. rewrite Ht.
  apply dict_of_nodup.
  rewrite (sorted_desc_perm (fun x : string * nat => x.2)).
  rewrite occurrence_table_keys. apply first_seen_nodup.
Qed.

Lemma summary_row_key (pr : properties_info) (pc : string * nat) r :
  summary_row pr pc = Ok r -> r.1.1 = pc.
Proof.
  unfold summary_row.
  destruct (item pc.1 (property_types pr)) as [types|]; [|done].
  destruct (item pc.1 (unique_value_counts pr)) as [u|]; [|done].
  intros [= <-]. by destruct pc.
Qed.

(** The rows of the rendered table follow ['all_properties']. *)
Lemma summary_rows_order (pr : properties_info) (l : list (string * nat))
    rows :
  mapM (summary_row pr) l = Ok rows -> (fun r => r.1.1) <$> rows = l.
Proof.
  revert rows. induction l as [|pc l IH]; intros rows Hrows.
  - by injection Hrows as <-.
  - change (mapM (summary_row pr) (pc :: l))
      with (y ← summary_row pr pc;
            r ← mapM (summary_row pr) l; Ok (y :: r)) in Hrows.
    destruct (summary_row pr pc) as [y|] eqn:Hy; [|done].
    destruct (mapM (summary_row pr) l) as [r|]; [|done].
    injection Hrows as <-. cbn [fmap list_fmap].
    by rewrite (summary_row_key _ _ _ Hy), (IH r).
Qed.

(** The property list [analyze_properties] stores holds every property
    once with its occurrence count, in descending order of the counts; the
    properties with one and the same count keep the order in which the
    per-feature pass first met them. *)
Lemma stored_ranking_descending_stable (data : value) (pr : properties_info) :
  analyze_properties data = Ok (Some pr) ->
  StronglySorted (fun a b => b.2 ≤ a.2) (all_properties pr) /\
  all_properties pr ≡ₚ Spec.occurrence_table (Spec.key_stream data) /\
  forall c : nat,
    filter (fun kc => kc.2 = c) (all_properties pr)
    = filter (fun kc => kc.2 = c)
        (Spec.occurrence_table (Spec.key_stream data)).
Proof.
  intros ->%analyze_properties_ranking. split_and!.
  - apply (sorted_desc_sorted (fun x : string * nat => x.2)).
  - apply sorted_desc_perm.
  - intros c. apply (sorted_desc_stable (fun x : string * nat => x.2)).
Qed.

(** A report that was written comes from a successful analysis. *)
Lemma main_report (data : value) (meta : file_info) report :
  report_file (main (Some data) meta) = Some report ->
  exists a,
    analyze (Some data) meta = Ok (Some a) /\ generate_markdown a = Ok report.
Proof.
  unfold main, crashed.
  destruct (analyze (Some data) meta) as [[a|]|e]; try done.
  destruct (generate_markdown a) as [r|e] eqn:Hr; [|done].
  destruct (print_summary a); simpl; intros [= <-]; by exists a.
Qed.

(** The properties aggregate of the analysis is what [analyze_properties]
    returned. *)
Lemma analyze_properties_stored (data : value) (meta : file_info)
    (a : analysis) :
  analyze (Some data) meta = Ok (Some a) ->
  analyze_properties data = Ok (properties a).
Proof.
  unfold analyze.
  destruct (analyze_structure data) as [st|]; [|done].
  destruct (analyze_properties data) as [pr|]; [|done].
  destruct (analyze_geometry data) as [ge|]; [|done].
  simpl. by intros [= <-].
Qed.

(** The rows of the property summary of a rendered report are the entries
    of ['all_properties'], in their order. *)
Lemma generate_markdown_rendered (a : analysis) report :
  generate_markdown a = Ok report ->
  exists pr,
    properties a = Some pr /\
    Spec.rendered_properties report = all_properties pr.
Proof.
  unfold generate_markdown.
  destruct (a_file_info a) as [info|]; [|done].
  destruct (structure a) as [st|]; [|done].
  cbn [field mbind result_bind].
  set (geometry := if truthy (VList (geometry_types a)) then _ else _).
  assert (forall g, geometry = Ok g -> Spec.rendered_properties g = [])
    as Hgeo.
  { subst geometry. intros g.
    destruct (truthy (VList (geometry_types a))); [|by intros [= <-]].
    destruct (sorted_tags (geometry_types a)) as [tags|]; [|done].
    destruct (statistics a) as [stats|]; [|done]. simpl.
    intros [= <-]. by case_decide. }
  destruct geometry as [g|]; [|done]. specialize (Hgeo g eq_refl).
  destruct (properties a) as [pr|]; [|done].
  cbn [field mbind result_bind].
  intros Hreport. exists pr. split; [done|].
  assert (forall rows, mapM (summary_row pr) (all_properties pr) = Ok rows ->
            Spec.rendered_properties
              [PropertySummary rows; SampleValues (sample_values pr)]
            = all_properties pr) as Hrows.
  { intros rows Hrows. unfold Spec.rendered_properties. simpl.
    rewrite app_nil_r. by apply (summary_rows_order pr). }
  assert (forall xs ys,
            Spec.rendered_properties (xs ++ ys)
            = Spec.rendered_properties xs ++ Spec.rendered_properties ys)
    as Happ by (intros; apply bind_app).
  assert (forall x y : list section, Ok x = Ok y -> x = y) as Hinj
    by congruence.
  destruct (all_properties pr) as [|pc l] eqn:Hall.
  - cbn [mbind result_bind] in Hreport. apply Hinj in Hreport as <-.
    rewrite !Happ, Hgeo.
    by destruct (coordinate_systems a),
      (filter (fun prop => is_join_property prop = true) [].*1).
  - destruct (mapM (summary_row pr) (pc :: l)) as [rows|] eqn:Hmap; [|done].
    cbn [mbind result_bind] in Hreport. apply Hinj in Hreport as <-.
    rewrite !Happ, Hgeo, (Hrows rows eq_refl).
    destruct (coordinate_systems a),
      (filter (fun prop => is_join_property prop = true) (pc :: l).*1);
      simpl; by rewrite ?app_nil_r.
Qed.

(** C7: in every report the analyzer writes, the properties listed in the
    property summary are all the properties the per-feature pass has met,
    each once with its occurrence count, in descending order of the counts;
    the properties with one and the same count are listed in the order in
    which the pass first met them. *)
Theorem rendered_ranking_descending_stable (data : value) (meta : file_info)
    report :
  report_file (main (Some data) meta) = Some report ->
  StronglySorted (fun a b => b.2 ≤ a.2) (Spec.rendered_properties report) /\
  Spec.rendered_properties report
  ≡ₚ Spec.occurrence_table (Spec.key_stream data) /\
  forall c : nat,
    filter (fun kc => kc.2 = c) (Spec.rendered_properties report)
    = filter (fun kc => kc.2 = c)
        (Spec.occurrence_table (Spec.key_stream data)).
Proof.
  intros (a & Ha & Hreport)%main_report.
  apply generate_markdown_rendered in Hreport as (pr & Hpr & ->).
  apply analyze_properties_stored in Ha. rewrite Hpr in Ha.
  by apply stored_ranking_descending_stable.
Qed.
End analyzer.

(** Witness of [count_coordinates_numeric_leaves]: numbers, a string and a
    nested sequence. *)
Lemma count_coordinates_numeric_leaves_witness :
  Analyzer.count_coordinates
    (Py.VList [Py.VInt 1; Py.VStr "x"; Py.VList [Py.VFloat 0; Py.VNone]])
  = 2.
Proof.
  exact (proj1 count_coordinates_numeric_leaves
           (Py.VList [Py.VInt 1; Py.VStr "x"; Py.VList [Py.VFloat 0; Py.VNone]])
           eq_refl).
Defined.

(** C9, as the specification words it, fails.  The array [[1]] has no
    [features] key and the run ends in an [AttributeError] raised by
    [analyze], not in a key lookup of the report generation; the empty
    object [{}] ends in a [KeyError], but the lookup that fails is ['type']
    in the structure aggregate, not ['all_properties']. *)
Lemma missing_features_other_errors :
  @Analyzer.analyze Spec.sample_format (Some (Py.VList [Py.VInt 1]))
    Spec.sample_file
  = Py.Raise Py.AttributeError /\
  @Analyzer.main Spec.sample_format (Some (Py.VList [Py.VInt 1]))
    Spec.sample_file
  = {| Analyzer.exit_status := 1; Analyzer.report_file := None;
       Analyzer.traceback := Some Py.AttributeError |} /\
  @Analyzer.main Spec.sample_format (Some (Py.VDict [])) Spec.sample_file
  = {| Analyzer.exit_status := 1; Analyzer.report_file := None;
       Analyzer.traceback := Some (Py.KeyError "type") |}.
Proof. split_and!; reflexivity. Qed.

(** Witness of [missing_features_uncaught]: an object that is not a
    feature collection. *)
Lemma missing_features_uncaught_witness :
  @Analyzer.main Spec.sample_format
    (Some (Py.VDict [("type", Py.VStr "Topology")])) Spec.sample_file
  = {| Analyzer.exit_status := 1; Analyzer.report_file := None;
       Analyzer.traceback := Some (Py.KeyError "all_properties") |}.
Proof.
  refine (proj2 (proj1 (@missing_features_uncaught Spec.sample_format
                          Spec.sample_file)
                   [("type", Py.VStr "Topology")] _ _)).
  - discriminate.
  - reflexivity.
Defined.

(** Witness of [rendered_ranking_descending_stable]: b and c are met
    twice, a and d once; b was met before c and a before d.  The summary
    lists b, c, a, d; the sample values, which are not ranked, follow the
    order of first appearance. *)
Lemma rendered_ranking_descending_stable_witness :
  exists report,
    Analyzer.report_file
      (@Analyzer.main Spec.sample_format (Some Spec.ranked_collection)
         Spec.sample_file)
    = Some report /\
    Spec.rendered_properties report = [("b", 2); ("c", 2); ("a", 1); ("d", 1)]
    /\
    Spec.rendered_samples report = ["a"; "b"; "c"; "d"] /\
    Spec.key_stream Spec.ranked_collection = ["a"; "b"; "c"; "b"; "c"; "d"] /\
    StronglySorted (fun a b => b.2 ≤ a.2) (Spec.rendered_properties report).
Proof.
  eexists. split_and!; [reflexivity | reflexivity | reflexivity | reflexivity|].
  refine (proj1 (@rendered_ranking_descending_stable Spec.sample_format
                   Spec.ranked_collection Spec.sample_file _ _)).
  reflexivity.
Defined.

(** Geometry types that are numbers ([2] and [1.0]) are sorted by value and
    the report is written, ranked as any other; it is the summary [main]
    prints afterwards that fails, on [', '.join]. *)
Example numbered_types_report_written :
  exists report,
    @Analyzer.main Spec.sample_format (Some Spec.numbered_collection)
      Spec.sample_file
    = {| Analyzer.exit_status := 1; Analyzer.report_file := Some report;
         Analyzer.traceback := Some Py.TypeError |} /\
    Py.VFloat 4607182418800017408 :: [Py.VInt 2]
    = (report ≫= fun s =>
         match s with Analyzer.GeometryTypes tags => tags | _ => [] end) /\
    Spec.rendered_properties report = [("a", 2); ("b", 1)].
Proof. eexists. split_and!; reflexivity. Qed.

(** * Further properties of the code *)

(** ** The Name Reconciler, continued *)

Section name_reconciler_more.
Import PyStr Py CheckNames.

Lemma append_empty (s : string) : s +:+ "" = s.
Proof.
  induction s as [|a s IH]; [done|]. by rewrite append_cons, IH.
Qed.

Lemma append_assoc (s t u : string) : (s +:+ t) +:+ u = s +:+ (t +:+ u).
Proof.
  induction s as [|a s IH]; [done|]. by rewrite !append_cons, IH.
Qed.

(** A pattern found at the start of [s +:+ t] lies within [s] or runs over
    the border into [t]. *)
Lemma prefix_app_cases (p s t : string) :
  String.prefix p (s +:+ t) = true ->
  String.prefix p s = true \/
  exists p2, p2 <> "" /\ p = s +:+ p2 /\ String.prefix p2 t = true.
Proof.
  revert p. induction s as [|a s IH]; intros p Hp.
  - destruct p as [|b p]; [by left|]. right. by exists (String b p).
  - destruct p as [|b p]; [by left|].
    rewrite append_cons, prefix_cons in Hp. case_decide; [subst|done].
    destruct (IH _ Hp) as [Hs|(p2 & Hne & -> & Ht)].
    + left. by rewrite prefix_cons, decide_True.
    + right. by exists p2.
Qed.

(** The scan for a pattern whose first character occurs nowhere else in it
    treats the two sides of a border apart, when the right side starts with
    that character or is empty. *)
Lemma replace_go_app c rest new (s t : string) :
  has_char c rest = false ->
  t = "" \/ (exists t', t = String c t') ->
  replace_go (String c rest) new 0 (s +:+ t)
  = replace_go (String c rest) new 0 s +:+ replace_go (String c rest) new 0 t.
Proof.
  intros Hc Ht. remember (String.length s) as n eqn:Hn.
  revert s Hn. induction (lt_wf n) as [n _ IH]. intros s ->.
  destruct s as [|a s]; [done|].
  destruct (String.prefix (String c rest) (String a s)) eqn:Hp.
  - destruct (prefix_split _ _ Hp) as [u Hu]. rewrite Hu, append_assoc.
    rewrite !replace_go_match by done. rewrite append_assoc. f_equal.
    eapply IH; [|done]. rewrite Hu, length_append. simpl. lia.
  - assert (String.prefix (String c rest) (String a s +:+ t) = false) as Hpt.
    { destruct (String.prefix (String c rest) (String a s +:+ t)) eqn:Hq;
        [|done].
      apply prefix_app_cases in Hq as [Hq|(p2 & Hne & Heq & Hq)];
        [congruence|].
      rewrite append_cons in Heq. injection Heq as -> ->.
      destruct Ht as [->|[t' ->]].
      - by destruct p2.
      - destruct p2 as [|b p2]; [done|].
        rewrite prefix_cons in Hq. case_decide; [subst|done].
        rewrite has_char_app in Hc. simpl in Hc.
        rewrite bool_decide_eq_true_2 in Hc by done.
        by rewrite orb_true_r in Hc. }
    rewrite append_cons in Hpt |- *.
    rewrite !replace_go_copy by done. rewrite append_cons. f_equal.
    eapply IH; [|done]. simpl. lia.
Qed.

Lemma replace_self c rest : replace_go (String c rest) "" 0 (String c rest) = "".
Proof.
  rewrite <-(append_empty (String c rest)) at 2.
  by rewrite replace_go_match.
Qed.

Lemma remove_char_app c (s t : string) :
  remove_char c (s +:+ t) = remove_char c s +:+ remove_char c t.
Proof.
  induction s as [|a s IH]; [done|].
  rewrite append_cons. simpl. case_decide; [done|].
  by rewrite append_cons, IH.
Qed.

(** X1: a name and the same name followed by [" Province"], or by
    [" County"], have the same normal form. *)
Theorem normalize_drops_suffix (s : string) :
  normalize (s +:+ " Province") = normalize s /\
  normalize (s +:+ " County") = normalize s.
Proof.
  rewrite !normalize_unfold. unfold replace. split.
  - rewrite (replace_go_app " " "Province") by (done || right; by eexists).
    rewrite (replace_self " " "Province"). by rewrite append_empty.
  - rewrite (replace_go_app " " "Province") by (done || right; by eexists).
    change (replace_go " Province" "" 0 " County") with " County".
    rewrite (replace_go_app " " "County") by (done || right; by eexists).
    rewrite (replace_self " " "County"). by rewrite append_empty.
Qed.

(** X2: the names normalization leaves as they are are exactly the names
    without a space. *)
Theorem normalize_fixed_points (s : string) :
  normalize s = s <-> has_char " " s = false.
Proof.
  split.
  - intros <-. apply normalize_no_space.
  - intros Hs. rewrite normalize_unfold.
    rewrite (replace_absent " Province" "" " " s) by done.
    rewrite (replace_absent " County" "" " " s) by done.
    by apply remove_char_absent.
Qed.

Lemma sorted_length (X : gset string) : length (sorted X) = size X.
Proof. unfold sorted. by rewrite merge_sort_Permutation. Qed.

(** X3: the three lists the reconciler prints hold, together, as many names
    as there are distinct names in the two inputs; none is counted twice. *)
Theorem compare_names_sizes (A B : gset string) :
  length (geojson_not_in_csv (compare_names A B))
  + length (csv_not_in_geojson (compare_names A B))
  + length (present_in_both (compare_names A B))
  = size (A ∪ B).
Proof.
  simpl. rewrite !sorted_length.
  assert (A ∪ B = (A ∖ B) ∪ ((B ∖ A) ∪ (A ∩ B))) as ->.
  { apply set_eq. intros x.
    destruct (decide (x ∈ A)), (decide (x ∈ B)); set_solver. }
  rewrite (size_union (A ∖ B)), (size_union (B ∖ A)) by set_solver. lia.
Qed.

Lemma foldlM_app {A B} (f : B -> A -> result B) (b : B) (l1 l2 : list A) :
  foldlM f b (l1 ++ l2) = b' ← foldlM f b l1; foldlM f b' l2.
Proof.
  revert b. induction l1 as [|x l1 IH]; intros b; [done|].
  simpl. destruct (f b x) as [b1|e]; [apply IH | done].
Qed.

(** X5: a CSV row without a [name] column ends the script with
    [KeyError('name')], whatever follows the row, once the GeoJSON names and
    the rows before it were read. *)
Theorem check_names_missing_column (geojson : value) (A names : gset string)
    (pre post : list value) (row : list (string * value)) :
  geojson_names geojson = Ok A ->
  csv_names pre = Ok names ->
  lookup "name" row = None ->
  check_names geojson (pre ++ VDict row :: post) = Raise (KeyError "name").
Proof.
  intros HA Hpre Hrow. unfold check_names. rewrite HA. simpl.
  unfold csv_names in *. rewrite foldlM_app, Hpre. simpl. by rewrite Hrow.
Qed.
End name_reconciler_more.

(** Witness of [check_names_missing_column]: the second row has a [title]
    instead of a [name]. *)
Lemma check_names_missing_column_witness :
  CheckNames.check_names (Py.VDict [("features", Py.VList [])])
    ([Py.VDict [("name", Py.VStr "Afar")]]
     ++ Py.VDict [("title", Py.VStr "Oromia")] :: [])
  = Py.Raise (Py.KeyError "name").
Proof.
  refine (check_names_missing_column (Py.VDict [("features", Py.VList [])]) ∅
            {[ "Afar" ]} [Py.VDict [("name", Py.VStr "Afar")]] []
            [("title", Py.VStr "Oromia")] _ _ _).
  - reflexivity.
  - vm_compute. reflexivity.
  - reflexivity.
Defined.

(** ** The Nested Path Extractor, continued *)

Section extractor_more.
Import Py Extractor.
Context {fmt : Format}.

(** The [except] clause of [get_nested_value] never answers. *)
Lemma get_nested_value_walk (obj : value) (path : string) :
  get_nested_value obj path = walk (PyStr.split "." path) obj.
Proof. unfold get_nested_value. by rewrite walk_resolve. Qed.

Lemma walk_none keys : keys <> [] -> walk keys VNone = Ok VNone.
Proof. by destruct keys. Qed.

Lemma walk_app (ks1 ks2 : list string) (obj : value) :
  ks2 <> [] ->
  walk (ks1 ++ ks2) obj = v ← walk ks1 obj; walk ks2 v.
Proof.
  intros Hne. revert obj. induction ks1 as [|k ks1 IH]; intros obj; [done|].
  simpl. destruct obj; simpl; try by rewrite walk_none.
  destruct (lookup k d) as [next|]; simpl; [apply IH | by rewrite walk_none].
Qed.

Lemma split_app sep (p q : string) :
  PyStr.split sep (p +:+ String sep q) = PyStr.split sep p ++ PyStr.split sep q.
Proof.
  induction p as [|a p IH].
  - rewrite append_nil. simpl. by rewrite decide_True.
  - rewrite append_cons. simpl. rewrite IH.
    pose proof (split_nonempty sep p) as Hne.
    case_decide; [done|]. by destruct (PyStr.split sep p).
Qed.

Lemma split_plain sep (s : string) :
  PyStr.has_char sep s = false -> PyStr.split sep s = [s].
Proof.
  induction s as [|a s IH]; [done|]. simpl.
  intros [Ha Hs]%orb_false_iff. apply bool_decide_eq_false in Ha.
  rewrite decide_False by done. by rewrite IH.
Qed.

(** X6: on an object that is not a mapping, a list or a string for
    instance, every address gives [None]: elements of a sequence cannot be
    addressed. *)
Theorem get_nested_value_not_mapping (obj : value) (path : string) :
  isinstance_dict obj = false ->
  get_nested_value obj path = Ok VNone.
Proof.
  intros Hobj. rewrite get_nested_value_walk.
  pose proof (split_nonempty "." path) as Hne.
  destruct (PyStr.split "." path) as [|k ks]; [done|].
  by destruct obj.
Qed.

(** X4: a feature whose [properties] entry is not a mapping, [null] for
    instance, gets the empty cell for every address; the extractor does not
    raise on it. *)
Theorem extract_one_properties_not_mapping f (path : string) :
  isinstance_dict (Spec.properties_of (VDict f)) = false ->
  extract_one path (VDict f) = Ok "".
Proof.
  intros Hp. rewrite extract_one_cell. unfold Spec.cell.
  pose proof (split_nonempty "." path) as Hne.
  destruct (PyStr.split "." path) as [|k ks]; [done|].
  by destruct (Spec.properties_of (VDict f)).
Qed.

(** X7: an address [p.q] is followed by following [p] and then, from the
    value found, [q]. *)
Theorem get_nested_value_compose (obj : value) (p q : string) :
  get_nested_value obj (p +:+ "." +:+ q)
  = v ← get_nested_value obj p; get_nested_value v q.
Proof.
  rewrite !get_nested_value_walk.
  change ("." +:+ q) with (String "." q).
  rewrite split_app, walk_app by apply split_nonempty.
  destruct (walk (PyStr.split "." p) obj) as [v|e]; simpl; [|done].
  by rewrite get_nested_value_walk.
Qed.

(** X8: an address without a dot is a plain lookup in the mapping, as
    [d.get(key)] is: the entry, or [None] when there is none. *)
Theorem get_nested_value_plain_key d (key : string) :
  PyStr.has_char "." key = false ->
  get_nested_value (VDict d) key = get (VDict d) key VNone.
Proof.
  intros Hkey. rewrite get_nested_value_walk, split_plain by done.
  simpl. by destruct (lookup key d).
Qed.

(** X9: a property whose name holds a dot cannot be addressed: the address
    [a.b] asks for the entry [a] first, and gives [None] when the mapping has
    no such entry, whether or not it has an entry named [a.b]. *)
Theorem dotted_key_unreachable d (a b : string) :
  PyStr.has_char "." a = false ->
  lookup a d = None ->
  get_nested_value (VDict d) (a +:+ "." +:+ b) = Ok VNone.
Proof.
  intros Ha Hl. rewrite get_nested_value_walk.
  change ("." +:+ b) with (String "." b).
  rewrite split_app, split_plain by done. simpl. by rewrite Hl.
Qed.

(** X10: a document object without a [features] entry is reported, not
    raised: no value is extracted, [run] returns [False] without writing a
    file, and [main] ends with status 1. *)
Theorem run_without_features d (path : string) :
  lookup "features" d = None ->
  extract_values (VDict d) path = Ok [] /\
  run (Some (VDict d)) path = Ok {| returned := false; csv_file := None |} /\
  main (Some (VDict d)) path = Ok 1.
Proof.
  intros Hl.
  assert (extract_values (VDict d) path = Ok []) as Hx.
  { unfold extract_values. destruct (truthy (VDict d)); [|done].
    cbn -[lookup]. by rewrite Hl. }
  assert (analyze_available_paths (VDict d) = Ok []) as Ha.
  { unfold analyze_available_paths. destruct (truthy (VDict d)); [|done].
    cbn -[lookup]. by rewrite Hl. }
  assert (run (Some (VDict d)) path
          = Ok {| returned := false; csv_file := None |}) as Hr.
  { unfold run. by rewrite Ha, Hx. }
  split_and!; [done..|]. unfold main. by rewrite Hr.
Qed.

Lemma extract_one_not_object (path : string) (f : value) :
  isinstance_dict f = false -> extract_one path f = Raise AttributeError.
Proof. by destruct f. Qed.

Lemma extract_rows_not_object (path : string) (fs : list value) :
  Exists (fun f => isinstance_dict f = false) fs ->
  mapM (extract_one path) fs = Raise AttributeError.
Proof.
  induction 1 as [f fs Hf|f fs _ IH].
  - change (mapM (extract_one path) (f :: fs))
      with (y ← extract_one path f;
            k ← mapM (extract_one path) fs; Ok (y :: k)).
    by rewrite extract_one_not_object.
  - change (mapM (extract_one path) (f :: fs))
      with (y ← extract_one path f;
            k ← mapM (extract_one path) fs; Ok (y :: k)).
    rewrite IH. destruct f; try done. by rewrite extract_one_cell.
Qed.

Lemma available_loop_outcome i (fs : list value) paths :
  (exists p, available_loop i fs paths = Ok p) \/
  available_loop i fs paths = Raise AttributeError.
Proof.
  revert i paths. induction fs as [|f fs IH]; intros i paths.
  - left. by eexists.
  - destruct f; try by right. simpl. apply IH.
Qed.

(** X11: a feature that is not an object, a number or a string in the
    feature list for instance, ends the run with an uncaught
    [AttributeError]; no file is written. *)
Theorem run_feature_not_object d (fs : list value) (path : string) :
  lookup "features" d = Some (VList fs) ->
  Exists (fun f => isinstance_dict f = false) fs ->
  run (Some (VDict d)) path = Raise AttributeError /\
  main (Some (VDict d)) path = Raise AttributeError.
Proof.
  intros Hl Hfs. destruct (collection_shape _ _ Hl) as (Ht & Hc & Hg).
  assert (run (Some (VDict d)) path = Raise AttributeError) as Hr.
  { unfold run, analyze_available_paths, extract_values.
    rewrite Ht, Hc. simpl negb. cbv iota. rewrite Hg. simpl.
    destruct (available_loop_outcome 0 (take 3 fs) []) as [[p ->]| ->];
      [|done].
    simpl. by rewrite extract_rows_not_object. }
  split; [done|]. unfold main. by rewrite Hr.
Qed.


(** X13: the path discovery reads the first three features only: two
    documents whose feature lists start with the same three features are
    given the same paths. *)
Theorem available_paths_first_three d1 d2 (fs1 fs2 : list value) :
  lookup "features" d1 = Some (VList fs1) ->
  lookup "features" d2 = Some (VList fs2) ->
  take 3 fs1 = take 3 fs2 ->
  analyze_available_paths (VDict d1) = analyze_available_paths (VDict d2).
Proof.
  intros Hl1 Hl2 Heq.
  destruct (collection_shape _ _ Hl1) as (Ht1 & Hc1 & Hg1).
  destruct (collection_shape _ _ Hl2) as (Ht2 & Hc2 & Hg2).
  unfold analyze_available_paths.
  rewrite Ht1, Hc1, Ht2, Hc2. simpl negb. cbv iota. rewrite Hg1, Hg2.
  simpl. by rewrite Heq.
Qed.

(** *** Path discovery *)

(** Reading a dictionary after [upsert]. *)
Lemma lookup_upsert {V} (key key' : string) (f : V -> V) dflt
    (d : list (string * V)) :
  lookup key' (upsert key f dflt d)
  = if decide (key' = key) then Some (f (from_option id dflt (lookup key d)))
    else lookup key' d.
Proof.
  induction d as [|[k v] d IH]; simpl.
  - destruct (decide (key = key')), (decide (key' = key)); congruence.
  - destruct (decide (k = key)) as [->|Hk]; simpl.
    + destruct (decide (key = key')), (decide (key' = key)); congruence.
    + rewrite IH.
      destruct (decide (k = key')), (decide (key' = key)); congruence.
Qed.

Lemma extends_refl p : Spec.extends p p.
Proof. intros key samples Hl. exists []. by rewrite app_nil_r. Qed.

Lemma extends_trans p q r :
  Spec.extends p q -> Spec.extends q r -> Spec.extends p r.
Proof.
  intros Hpq Hqr key samples Hl.
  destruct (Hpq _ _ Hl) as [m1 H1]. destruct (Hqr _ _ H1) as [m2 H2].
  exists (m1 ++ m2). by rewrite app_assoc.
Qed.

Lemma upsert_extends (key x : string) p :
  Spec.extends p (upsert key (fun l => l ++ [x]) [] p).
Proof.
  intros key' samples Hl. rewrite lookup_upsert.
  case_decide as Hk.
  - subst. rewrite Hl. by exists [x].
  - exists []. by rewrite app_nil_r.
Qed.

Lemma foldl_extends {A} (step : pathmap -> A -> pathmap) (l : list A) p :
  (forall q x, Spec.extends q (step q x)) -> Spec.extends p (foldl step p l).
Proof.
  intros Hstep. revert p. induction l as [|x l IH]; intros p; simpl.
  - apply extends_refl.
  - eapply extends_trans; [apply Hstep | apply IH].
Qed.

Lemma find_nested_paths_extends (max_depth : nat) (obj : value)
    (current_path : string) (paths : pathmap) :
  Spec.extends paths (find_nested_paths max_depth obj current_path paths).
Proof.
  revert obj current_path paths.
  induction max_depth as [|n IH]; intros obj cur paths;
    [apply extends_refl|].
  destruct obj; try apply extends_refl. simpl.
  apply foldl_extends. intros q [key val].
  destruct val; try apply upsert_extends.
  eapply extends_trans; [apply upsert_extends | apply IH].
Qed.

(** X14: path discovery only adds: every path recorded before a call is
    still recorded after it, with the samples it had, in their order, at the
    front of its sample list. *)
Theorem find_nested_paths_keeps_entries (max_depth : nat) (obj : value)
    (current_path key : string) (paths : pathmap) (samples : list string) :
  lookup key paths = Some samples ->
  exists more,
    lookup key (find_nested_paths max_depth obj current_path paths)
    = Some (samples ++ more).
Proof. apply find_nested_paths_extends. Qed.

(** X15: with a positive depth, every entry of a mapping is recorded, under
    the address made of the current path and its key, with at least one
    sample. *)
Theorem find_nested_paths_lists_entries (depth : nat) d
    (current_path key : string) (val : value) (paths : pathmap) :
  (key, val) ∈ d ->
  exists sample samples,
    lookup (Spec.child_path current_path key)
      (find_nested_paths (S depth) (VDict d) current_path paths)
    = Some (sample :: samples).
Proof.
  intros Hin. apply list_elem_of_split in Hin as (d1 & d2 & ->).
  simpl. rewrite foldl_app. simpl.
  set (before := foldl _ paths d1).
  set (path := if decide (current_path = "") then key
               else current_path +:+ "." +:+ key).
  assert (exists x, Spec.extends
            (upsert path (fun l => l ++ [x]) [] before)
            (match val with
             | VDict d' =>
                 find_nested_paths depth val path
                   (upsert path
                      (fun l => l ++ ["<nested object with " +:+
                                      pretty (length d') +:+ " keys>"])
                      [] before)
             | _ => upsert path (fun l => l ++ [str val]) [] before
             end)) as [x Hx].
  { destruct val; try (eexists; apply extends_refl).
    eexists. apply find_nested_paths_extends. }
  assert (lookup path (upsert path (fun l => l ++ [x]) [] before)
          = Some (from_option id [] (lookup path before) ++ [x])) as Hl
    by (by rewrite lookup_upsert, decide_True).
  apply Hx in Hl as [m1 Hl].
  eapply foldl_extends in Hl as [m2 Hl].
  - unfold Spec.child_path. fold path. rewrite Hl.
    destruct (from_option id [] (lookup path before)); simpl; by eexists _, _.
  - intros q [k v]. destruct v; try apply upsert_extends.
    eapply extends_trans; [apply upsert_extends|].
    apply find_nested_paths_extends.
Qed.
End extractor_more.

(** Witness of [find_nested_paths_keeps_entries]. *)
Lemma find_nested_paths_keeps_entries_witness :
  exists more,
    Py.lookup "Feature 1.name"
      (@Extractor.find_nested_paths Spec.sample_format 3
         (Py.VDict [("name", Py.VStr "Afar")]) "Feature 1"
         [("Feature 1.name", ["Oromia"])])
    = Some (["Oromia"] ++ more).
Proof.
  exact (@find_nested_paths_keeps_entries Spec.sample_format 3
           (Py.VDict [("name", Py.VStr "Afar")]) "Feature 1" "Feature 1.name"
           [("Feature 1.name", ["Oromia"])] ["Oromia"] eq_refl).
Defined.

(** Witness of [find_nested_paths_lists_entries]. *)
Lemma find_nested_paths_lists_entries_witness :
  exists sample samples,
    Py.lookup (Spec.child_path "Feature 1" "tags")
      (@Extractor.find_nested_paths Spec.sample_format 1
         (Py.VDict [("name", Py.VStr "Afar"); ("tags", Py.VDict [])])
         "Feature 1" [])
    = Some (sample :: samples).
Proof.
  refine (@find_nested_paths_lists_entries Spec.sample_format 0
            [("name", Py.VStr "Afar"); ("tags", Py.VDict [])]
            "Feature 1" "tags" (Py.VDict []) [] _).
  apply list_elem_of_further, list_elem_of_here.
Defined.

(** Witness of [run_without_features]. *)
Lemma run_without_features_witness :
  @Extractor.main Spec.sample_format
    (Some (Py.VDict [("type", Py.VStr "Topology")])) "tags.name:en"
  = Py.Ok 1.
Proof.
  exact (proj2 (proj2 (@run_without_features Spec.sample_format
                         [("type", Py.VStr "Topology")] "tags.name:en"
                         eq_refl))).
Defined.

(** Witness of [run_feature_not_object]: the second feature is a number. *)
Lemma run_feature_not_object_witness :
  @Extractor.main Spec.sample_format
    (Some (Py.VDict [("features", Py.VList [Py.VDict []; Py.VInt 7])])) "name"
  = Py.Raise Py.AttributeError.
Proof.
  refine (proj2 (@run_feature_not_object Spec.sample_format
                   [("features", Py.VList [Py.VDict []; Py.VInt 7])]
                   [Py.VDict []; Py.VInt 7] "name" eq_refl _)).
  apply Exists_cons_tl, Exists_cons_hd. reflexivity.
Defined.


(** Witness of [available_paths_first_three]: a fourth feature changes
    nothing. *)
Lemma available_paths_first_three_witness :
  @Extractor.analyze_available_paths Spec.sample_format
    (Py.VDict [("features", Py.VList Spec.three_features)])
  = @Extractor.analyze_available_paths Spec.sample_format
      (Py.VDict [("features",
                  Py.VList (Spec.three_features
                            ++ [Py.VDict [("properties",
                                           Py.VDict [("x", Py.VInt 1)])]]))]).
Proof.
  exact (@available_paths_first_three Spec.sample_format
           [("features", Py.VList Spec.three_features)]
           [("features",
             Py.VList (Spec.three_features
                       ++ [Py.VDict [("properties",
                                      Py.VDict [("x", Py.VInt 1)])]]))]
           Spec.three_features
           (Spec.three_features
            ++ [Py.VDict [("properties", Py.VDict [("x", Py.VInt 1)])]])
           eq_refl eq_refl eq_refl).
Defined.

(** Witness of [get_nested_value_not_mapping]: a list of coordinates. *)
Lemma get_nested_value_not_mapping_witness :
  Extractor.get_nested_value (Py.VList [Py.VInt 1; Py.VInt 2]) "0"
  = Py.Ok Py.VNone.
Proof.
  exact (get_nested_value_not_mapping (Py.VList [Py.VInt 1; Py.VInt 2]) "0"
           eq_refl).
Defined.

(** Witness of [get_nested_value_plain_key]. *)
Lemma get_nested_value_plain_key_witness :
  Extractor.get_nested_value (Py.VDict [("name", Py.VStr "Afar")]) "name"
  = Py.get (Py.VDict [("name", Py.VStr "Afar")]) "name" Py.VNone.
Proof.
  exact (get_nested_value_plain_key [("name", Py.VStr "Afar")] "name" eq_refl).
Defined.

(** Witness of [dotted_key_unreachable]: the mapping has the entry
    [name.en] and no entry [name]. *)
Lemma dotted_key_unreachable_witness :
  Extractor.get_nested_value (Py.VDict [("name.en", Py.VStr "Afar")])
    ("name" +:+ "." +:+ "en")
  = Py.Ok Py.VNone.
Proof.
  exact (dotted_key_unreachable [("name.en", Py.VStr "Afar")] "name" "en"
           eq_refl eq_refl).
Defined.

(** ** The Schema Analyzer, continued *)

Section analyzer_more.
Import Py Analyzer.
Context {fmt : Format}.

(** *** The property profile *)

Lemma upsert_count_sum (k : string) (d : list (string * nat)) :
  sum_list_with snd (upsert k S 0 d) = S (sum_list_with snd d).
Proof.
  induction d as [|[k' n] d IH]; simpl; [done|].
  case_decide; simpl; [done|]. rewrite IH. lia.
Qed.

Lemma count_keys_sum (ks : list string) (d : list (string * nat)) :
  sum_list_with snd (foldl (fun d k => upsert k S 0 d) d ks)
  = sum_list_with snd d + length ks.
Proof.
  revert d. induction ks as [|k ks IH]; intros d; simpl; [lia|].
  rewrite IH, upsert_count_sum. lia.
Qed.

Lemma occurrences_seen (k : string) (ks : list string) :
  k ∈ ks -> 1 ≤ Spec.occurrences k ks.
Proof.
  unfold Spec.occurrences. induction 1 as [k ks|k k' ks _ IH].
  - rewrite filter_cons, decide_True by done. simpl. lia.
  - rewrite filter_cons. case_decide; simpl; lia.
Qed.

(** X16: the reported occurrence counts add up to the number of
    (feature, property) pairs the pass has met, and no property is listed
    with a count of zero. *)
Theorem occurrence_counts_sum (data : value) (pr : properties_info) :
  analyze_properties data = Ok (Some pr) ->
  sum_list_with snd (all_properties pr) = length (Spec.key_stream data) /\
  Forall (fun kc => 1 ≤ kc.2) (all_properties pr).
Proof.
  intros ->%analyze_properties_ranking. split.
  - rewrite (sorted_desc_perm (fun x : string * nat => x.2)).
    rewrite <-count_keys_table. by rewrite count_keys_sum.
  - rewrite (sorted_desc_perm (fun x : string * nat => x.2)).
    unfold Spec.occurrence_table. apply Forall_fmap, Forall_forall.
    intros k Hk. simpl. by apply occurrences_seen, first_seen_elem_of.
Qed.

(** *** The four dictionaries of the pass stay in step *)

Lemma upsert_aligned {V W} (R : V -> W -> Prop) (k : string)
    (f1 : V -> V) (x1 : V) (f2 : W -> W) (x2 : W) d1 d2 :
  R (f1 x1) (f2 x2) ->
  (forall v w, R v w -> R (f1 v) (f2 w)) ->
  Spec.aligned R d1 d2 ->
  Spec.aligned R (upsert k f1 x1 d1) (upsert k f2 x2 d2).
Proof.
  intros Hnew Hstep. unfold Spec.aligned.
  induction 1 as [|[k1 v] [k2 w] d1 d2 [Hk HR] Hd IH]; simpl in *.
  - by repeat constructor.
  - subst k2. case_decide; constructor; simpl; auto.
Qed.

Lemma aligned_lookup {V W} (R : V -> W -> Prop) (k : string) d1 d2 v :
  Spec.aligned R d1 d2 ->
  lookup k d1 = Some v ->
  exists w, lookup k d2 = Some w /\ R v w.
Proof.
  unfold Spec.aligned.
  induction 1 as [|[k1 v1] [k2 w] d1 d2 [Hk HR] _ IH]; simpl in *; [done|].
  subst k2. case_decide; [|done]. intros [= <-]. by exists w.
Qed.

(** [upsert] only ever adds the key it is given, at the end. *)
Lemma upsert_keys {V} (k : string) (f : V -> V) x (d : list (string * V)) :
  (upsert k f x d).*1 = if decide (k ∈ d.*1) then d.*1 else d.*1 ++ [k].
Proof.
  induction d as [|[k' v] d IH].
  - destruct (decide (k ∈ ([] : list (string * V)).*1)) as [Hin|_]; [|done].
    by apply elem_of_nil in Hin.
  - cbn [upsert]. destruct (decide (k' = k)) as [->|Hne].
    + destruct (decide (k ∈ ((k, v) :: d).*1)) as [_|Hout]; [done|].
      destruct Hout. by left.
    + cbn [fmap list_fmap]. rewrite IH.
      destruct (decide (k ∈ d.*1)) as [Hin|Hout],
        (decide (k ∈ (k', v).1 :: d.*1)) as [Hin'|Hout']; try done.
      * destruct Hout'. by right.
      * apply elem_of_cons in Hin' as [?|?]; simpl in *; congruence.
Qed.

Lemma upsert_keys_nodup {V} (k : string) (f : V -> V) x
    (d : list (string * V)) :
  NoDup d.*1 -> NoDup (upsert k f x d).*1.
Proof.
  intros Hnd. rewrite upsert_keys. case_decide as Hk; [done|].
  apply NoDup_app. split_and!; [done| |apply NoDup_singleton].
  intros y Hy ->%list_elem_of_singleton. done.
Qed.

Lemma lookup_elem_of {V} (k : string) (v : V) (d : list (string * V)) :
  NoDup d.*1 -> (k, v) ∈ d -> lookup k d = Some v.
Proof.
  induction d as [|[k' v'] d IH]; simpl; [by intros _ ?%elem_of_nil|].
  intros [Hk' Hnd]%NoDup_cons [Heq|Hin]%elem_of_cons.
  - injection Heq as <- <-. by rewrite decide_True.
  - rewrite decide_False; [by apply IH|].
    intros ->. apply Hk'. by apply (list_elem_of_fmap_2 fst) in Hin.
Qed.

Lemma lookup_fmap_values {V W} (g : V -> W) (k : string)
    (d : list (string * V)) :
  lookup k ((fun '(k', v) => (k', g v)) <$> d) = g <$> lookup k d.
Proof.
  induction d as [|[k' v] d IH]; simpl; [done|]. by case_decide.
Qed.

Lemma set_add_length (x : string) (s : list string) :
  length s ≤ length (set_add x s) ≤ S (length s).
Proof.
  unfold set_add. case_decide; [lia|]. rewrite length_app. simpl. lia.
Qed.

Lemma tally_step_in_step (t : tally) (kv : string * value) :
  Spec.in_step t -> Spec.in_step (tally_step t kv).
Proof.
  intros (Hnd & Hv & Hu & Ht). destruct kv as [key val].
  unfold Spec.in_step, tally_step. cbn [t_all_properties t_property_values
    t_unique_values t_property_types]. split_and!.
  - by apply upsert_keys_nodup.
  - apply upsert_aligned; [done| |done].
    intros n l Hl. case_decide; [rewrite length_app; simpl|]; lia.
  - apply upsert_aligned; [|intros n s Hs|done].
    + pose proof (set_add_length (str val) []). simpl in *. lia.
    + pose proof (set_add_length (str val) s). lia.
  - apply upsert_aligned; [|intros n s Hs|done].
    + pose proof (set_add_length (type_name val) []). simpl in *. lia.
    + pose proof (set_add_length (type_name val) s). lia.
Qed.

Lemma tally_features_in_step (fs : list value) (t t' : tally) :
  Spec.in_step t -> foldlM tally_feature t fs = Ok t' -> Spec.in_step t'.
Proof.
  revert t. induction fs as [|f fs IH]; intros t Ht Hfold.
  - by injection Hfold as <-.
  - simpl in Hfold.
    destruct (tally_feature t f) as [t1|] eqn:Hstep; [|done].
    simpl in Hfold. apply (IH t1); [|done].
    unfold tally_feature in Hstep.
    destruct (get f "properties" (VDict [])) as [props|]; [|done].
    simpl in Hstep. destruct (items props) as [kvs|]; [|done].
    injection Hstep as <-. clear -Ht.
    revert t Ht. induction kvs as [|kv kvs IHk]; intros t Ht; [done|].
    simpl. by apply IHk, tally_step_in_step.
Qed.

(** A successful pass stores [finish t] for a tally [t] that is in step. *)
Lemma analyze_properties_tally (data : value) (pr : properties_info) :
  analyze_properties data = Ok (Some pr) ->
  exists t, pr = finish t /\ Spec.in_step t.
Proof.
  unfold analyze_properties. intros Hpr.
  destruct (truthy data); [|done]. simpl in Hpr.
  destruct (contains "features" data) as [[]|]; try done. simpl in Hpr.
  destruct (getitem data "features") as [features|]; [|done].
  simpl in Hpr.
  destruct (iter features) as [fs|]; [|done]. simpl in Hpr.
  destruct (foldlM tally_feature empty_tally fs) as [t|] eqn:Ht; [|done].
  simpl in Hpr. injection Hpr as <-. exists t. split; [done|].
  eapply tally_features_in_step; [|exact Ht].
  unfold Spec.in_step, Spec.aligned. simpl. split_and!; constructor.
Qed.

(** A listed property is a key of the tally, with the listed count. *)
Lemma listed_property (t : tally) (k : string) (n : nat) :
  Spec.in_step t ->
  (k, n) ∈ all_properties (finish t) ->
  lookup k (t_all_properties t) = Some n.
Proof.
  intros (Hnd & _) Hin. unfold finish in Hin. cbn [all_properties] in Hin.
  rewrite dict_of_nodup in Hin.
  - apply lookup_elem_of; [done|].
    by rewrite (sorted_desc_perm (fun x : string * nat => x.2)) in Hin.
  - by rewrite (sorted_desc_perm (fun x : string * nat => x.2)).
Qed.

(** X17: for every listed property the report keeps the first samples met,
    five at most: a property met [n] times has [min n 5] samples. *)
Theorem sample_values_capped (data : value) (pr : properties_info)
    (k : string) (n : nat) :
  analyze_properties data = Ok (Some pr) ->
  (k, n) ∈ all_properties pr ->
  exists samples,
    lookup k (sample_values pr) = Some samples /\
    length samples = n `min` 5.
Proof.
  intros (t & -> & Ht)%analyze_properties_tally Hin.
  apply listed_property in Hin; [|done].
  destruct Ht as (_ & Hv & _).
  by apply (aligned_lookup _ _ _ _ _ Hv) in Hin.
Qed.

(** X18: for every listed property the number of distinct values and the
    number of distinct type names lie between one and its occurrence
    count. *)
Theorem distinct_counts_bounded (data : value) (pr : properties_info)
    (k : string) (n : nat) :
  analyze_properties data = Ok (Some pr) ->
  (k, n) ∈ all_properties pr ->
  exists u types,
    lookup k (unique_value_counts pr) = Some u /\ 1 ≤ u ≤ n /\
    lookup k (property_types pr) = Some types /\ 1 ≤ length types ≤ n.
Proof.
  intros (t & -> & Ht)%analyze_properties_tally Hin.
  apply listed_property in Hin; [|done].
  destruct Ht as (_ & _ & Hu & Hty).
  destruct (aligned_lookup _ _ _ _ _ Hu Hin) as (s & Hs & Hbound).
  destruct (aligned_lookup _ _ _ _ _ Hty Hin) as (types & Htypes & Hb2).
  exists (length s), types. split_and!; try done; try lia.
  unfold finish. cbn [unique_value_counts].
  by rewrite lookup_fmap_values, Hs.
Qed.

Lemma mapM_defined {A B} (f : A -> result B) (l : list A) :
  Forall (fun x => exists y, f x = Ok y) l ->
  exists ys, mapM f l = Ok ys /\ length ys = length l.
Proof.
  induction 1 as [|x l [y Hy] _ (ys & Hys & Hlen)]; [by exists []|].
  exists (y :: ys).
  change (mapM f (x :: l)) with (y ← f x; k ← mapM f l; Ok (y :: k)).
  rewrite Hy, Hys. simpl. by rewrite Hlen.
Qed.

Lemma summary_rows_ok (t : tally) :
  Spec.in_step t ->
  exists rows,
    mapM (summary_row (finish t)) (all_properties (finish t)) = Ok rows /\
    length rows = length (all_properties (finish t)).
Proof.
  intros Ht. apply mapM_defined, Forall_forall. intros [k n] Hin.
  apply listed_property in Hin; [|done].
  destruct Ht as (_ & _ & Hu & Hty).
  destruct (aligned_lookup _ _ _ _ _ Hu Hin) as (s & Hs & _).
  destruct (aligned_lookup _ _ _ _ _ Hty Hin) as (types & Htypes & _).
  unfold summary_row, item, finish.
  cbn [property_types unique_value_counts fst snd].
  rewrite Htypes, lookup_fmap_values, Hs. simpl. by eexists.
Qed.

(** X19: once the pass has succeeded, rendering the property table raises
    no [KeyError]: every listed property has its entry among the type names
    and among the distinct-value counts, and the table has one row per
    listed property. *)
Theorem summary_rows_defined (data : value) (pr : properties_info) :
  analyze_properties data = Ok (Some pr) ->
  exists rows,
    mapM (summary_row pr) (all_properties pr) = Ok rows /\
    length rows = length (all_properties pr).
Proof.
  intros (t & -> & Ht)%analyze_properties_tally. by apply summary_rows_ok.
Qed.

(** *** The coordinate counter *)

Lemma count_coordinates_list (l : list value) :
  count_coordinates (VList l) = sum_list (map count_coordinates l).
Proof. done. Qed.

(** X20: the counter depends on the leaves of the structure only, not on
    how they are grouped into lists: it is the number of leaves that are an
    [int], a [float] or a [bool].  So the count of a concatenation is the
    sum of the counts. *)
Theorem count_coordinates_leaves :
  (forall v : value,
     count_coordinates v
     = length (filter (fun x => isinstance_int_float x = true)
                      (Spec.leaves v))) /\
  (forall l1 l2 : list value,
     count_coordinates (VList (l1 ++ l2))
     = count_coordinates (VList l1) + count_coordinates (VList l2)).
Proof.
  split.
  - intros v. induction v as [| b | z | bits | s | l IH | d _]
      using value_nested_ind; try done.
    rewrite count_coordinates_list. cbn [Spec.leaves].
    induction IH as [|x l Hx _ IHl]; [done|].
    cbn [map concat sum_list_with id]. rewrite filter_app, length_app.
    by rewrite Hx, IHl.
  - intros l1 l2. rewrite !count_coordinates_list, map_app.
    apply sum_list_with_app.
Qed.

(** *** Documents that are not feature collections *)

(** X21: a document that is false in Python's sense (null, [false], 0, an
    empty string, array or object) passes [analyze] with every aggregate
    left empty; rendering then fails on the first structure lookup, and
    [main] ends with an uncaught [KeyError('type')] and no report. *)
Theorem main_falsy_document (data : value) (meta : file_info) :
  truthy data = false ->
  analyze (Some data) meta
  = Ok (Some {| a_file_info := Some meta; structure := None;
                properties := None; geometry_types := [];
                coordinate_systems := []; statistics := None |}) /\
  main (Some data) meta
  = {| exit_status := 1; report_file := None;
       traceback := Some (KeyError "type") |}.
Proof.
  intros Hd.
  assert (analyze (Some data) meta
          = Ok (Some {| a_file_info := Some meta; structure := None;
                        properties := None; geometry_types := [];
                        coordinate_systems := []; statistics := None |}))
    as Ha.
  { unfold analyze, analyze_structure, analyze_properties, analyze_geometry.
    by rewrite Hd. }
  split; [done|]. unfold main. by rewrite Ha.
Qed.

(** X22: a document that is true in Python's sense and is not an object, an
    array of features for instance, ends [main] with an uncaught
    [AttributeError]: the structure pass calls [get] on it. *)
Theorem main_not_object (data : value) (meta : file_info) :
  truthy data = true ->
  isinstance_dict data = false ->
  main (Some data) meta
  = {| exit_status := 1; report_file := None;
       traceback := Some AttributeError |}.
Proof.
  intros Ht Hd. unfold main, analyze, analyze_structure. rewrite Ht.
  by destruct data.
Qed.

(** *** Feature collections *)

(** What the structure pass stores for a document with a feature list. *)
Lemma analyze_structure_collection d (fs : list value) :
  lookup "features" d = Some (VList fs) ->
  analyze_structure (VDict d)
  = Ok (Some ({| type_ := from_option id VNone (lookup "type" d);
                 has_features := true;
                 feature_count := length fs;
                 has_bbox := bool_decide (is_Some (lookup "bbox" d));
                 has_crs := bool_decide (is_Some (lookup "crs" d));
                 top_level_keys := d.*1 |},
              match lookup "crs" d with
              | Some crs => [str crs]
              | None => []
              end)).
Proof.
  intros Hl. unfold analyze_structure.
  assert (truthy (VDict d) = true) as -> by by destruct d.
  cbn -[lookup]. rewrite Hl. cbn -[lookup].
  by destruct (lookup "crs" d).
Qed.


(** *** The passes over the features *)

Lemma tally_feature_outcome (t : tally) (f : value) :
  if Spec.has_mapping_properties f
  then exists t', tally_feature t f = Ok t'
  else tally_feature t f = Raise AttributeError.
Proof.
  unfold tally_feature, Spec.has_mapping_properties, Spec.properties_of.
  destruct f; try done. simpl.
  destruct (from_option id (VDict []) (lookup "properties" d)); simpl;
    try done.
  by eexists.
Qed.

Lemma tally_features_ok (fs : list value) (t : tally) :
  Forall (fun f => Spec.has_mapping_properties f = true) fs ->
  exists t', foldlM tally_feature t fs = Ok t'.
Proof.
  intros Hfs. revert t. induction Hfs as [|f fs Hf _ IH]; intros t.
  - by eexists.
  - pose proof (tally_feature_outcome t f) as Ho. rewrite Hf in Ho.
    destruct Ho as [t1 Ht1]. simpl. rewrite Ht1. simpl. apply IH.
Qed.

Lemma tally_features_raise (fs : list value) (t : tally) :
  Exists (fun f => Spec.has_mapping_properties f = false) fs ->
  foldlM tally_feature t fs = Raise AttributeError.
Proof.
  intros Hfs. revert t. induction Hfs as [f fs Hf|f fs _ IH]; intros t.
  - pose proof (tally_feature_outcome t f) as Ho. rewrite Hf in Ho.
    simpl. by rewrite Ho.
  - pose proof (tally_feature_outcome t f) as Ho. simpl.
    destruct (Spec.has_mapping_properties f).
    + destruct Ho as [t1 ->]. simpl. apply IH.
    + by rewrite Ho.
Qed.

(** X24: a feature that is not an object, or whose [properties] entry is
    not a mapping ([null] for instance), ends [main] with an uncaught
    [AttributeError] and no report. *)
Theorem main_properties_not_mapping d (fs : list value) (meta : file_info) :
  lookup "features" d = Some (VList fs) ->
  Exists (fun f => Spec.has_mapping_properties f = false) fs ->
  main (Some (VDict d)) meta
  = {| exit_status := 1; report_file := None;
       traceback := Some AttributeError |}.
Proof.
  intros Hl Hfs. destruct (collection_shape _ _ Hl) as (Ht & Hc & Hg).
  unfold main, analyze. rewrite (analyze_structure_collection _ _ Hl).
  unfold analyze_properties. rewrite Ht, Hc. simpl negb. cbv iota.
  rewrite Hg. simpl. by rewrite tally_features_raise.
Qed.

(** One feature adds at most one type tag and at most one count. *)
Lemma geometry_step_lengths tags counts (f : value) tags' counts' :
  geometry_step (tags, counts) f = Ok (tags', counts') ->
  length tags' ≤ S (length tags) /\ length counts' ≤ S (length counts).
Proof.
  unfold geometry_step.
  destruct (get f "geometry" (VDict [])) as [g|]; [|done]. simpl.
  destruct (get g "type" VNone) as [ty|]; [|done]. simpl.
  destruct (truthy ty).
  - unfold tag_add.
    destruct ty; try done; simpl;
      (destruct (get g "coordinates" (VList [])) as [c|]; [|done]); simpl;
      intros [= <- <-];
      (split; [destruct (existsb _ tags) | destruct (truthy c)]);
      rewrite ?length_app; simpl; lia.
  - simpl. destruct (get g "coordinates" (VList [])) as [c|]; [|done].
    simpl. intros [= <- <-].
    split; [lia|]. destruct (truthy c); rewrite ?length_app; simpl; lia.
Qed.

Lemma geometry_steps_lengths (fs : list value) acc acc' :
  foldlM geometry_step acc fs = Ok acc' ->
  length acc'.1 ≤ length acc.1 + length fs /\
  length acc'.2 ≤ length acc.2 + length fs.
Proof.
  revert acc. induction fs as [|f fs IH]; intros acc Hfold.
  - injection Hfold as <-. lia.
  - simpl in Hfold.
    destruct (geometry_step acc f) as [acc1|] eqn:Hstep; [|done].
    simpl in Hfold. apply IH in Hfold.
    destruct acc as [tags counts], acc1 as [tags1 counts1].
    apply geometry_step_lengths in Hstep. simpl in *. lia.
Qed.

(** X25: the geometry pass never counts more than it has seen: the number
    of features that entered the coordinate average, and the number of
    distinct geometry types, are at most the number of features. *)
Theorem geometry_statistics_bounds (data : value) (tags : list value)
    (st : statistics_info) :
  analyze_geometry data = Ok (Some (tags, st)) ->
  coordinate_features st ≤ total_features st /\
  length tags ≤ total_features st.
Proof.
  unfold analyze_geometry. intros Hg.
  destruct (truthy data); [|done]. simpl in Hg.
  destruct (contains "features" data) as [[]|]; try done. simpl in Hg.
  destruct (getitem data "features") as [features|]; [|done].
  simpl in Hg. unfold len in Hg.
  destruct (iter features) as [fs|]; [|done]. simpl in Hg.
  destruct (foldlM geometry_step ([], []) fs) as [acc|] eqn:Hfold; [|done].
  simpl in Hg. injection Hg as <- <-.
  apply geometry_steps_lengths in Hfold. simpl in *. lia.
Qed.

(** *** Well-formed collections *)

Lemma well_formed_has_mapping (f : value) :
  Spec.well_formed_feature f = true -> Spec.has_mapping_properties f = true.
Proof. by intros [? _]%andb_true_iff. Qed.

Lemma geometry_step_well_formed tags counts (f : value) :
  Spec.well_formed_feature f = true ->
  Forall (fun v => is_Some (tag_string v)) tags ->
  exists tags' counts',
    geometry_step (tags, counts) f = Ok (tags', counts') /\
    Forall (fun v => is_Some (tag_string v)) tags'.
Proof.
  intros [Hp Hg]%andb_true_iff Htags.
  destruct f as [| | | | | |fd]; try done.
  unfold geometry_step, Spec.geometry_of in *. cbn -[lookup].
  destruct (from_option id (VDict []) (lookup "geometry" fd))
    as [| | | | | |gd]; try done.
  cbn -[lookup] in *.
  destruct (lookup "type" gd) as [[| | | |s| |]|]; try done; cbn -[lookup].
  - by eexists _, _.
  - destruct (bool_decide (s = "")); cbn -[lookup].
    + by eexists _, _.
    + eexists _, _. split; [done|].
      destruct (existsb _ tags); [done|].
      apply Forall_app. split; [done|]. by repeat constructor.
  - by eexists _, _.
Qed.

Lemma geometry_steps_well_formed (fs : list value) tags counts :
  Forall (fun f => Spec.well_formed_feature f = true) fs ->
  Forall (fun v => is_Some (tag_string v)) tags ->
  exists tags' counts',
    foldlM geometry_step (tags, counts) fs = Ok (tags', counts') /\
    Forall (fun v => is_Some (tag_string v)) tags'.
Proof.
  intros Hfs. revert tags counts.
  induction Hfs as [|f fs Hf _ IH]; intros tags counts Htags.
  - by eexists _, _.
  - destruct (geometry_step_well_formed tags counts f Hf Htags)
      as (tags1 & counts1 & Hstep & Htags1).
    cbn [foldlM]. rewrite Hstep. cbn [mbind result_bind]. by apply IH.
Qed.

Lemma tag_strings_defined (tags : list value) :
  Forall (fun v => is_Some (tag_string v)) tags ->
  exists names, mapM tag_string tags = Some names.
Proof.
  intros Htags. apply (mapM_is_Some_2 tag_string) in Htags.
  by destruct Htags as [names ->]; eexists.
Qed.

(** Rendering succeeds on an analysis whose aggregates are all filled, the
    tally in step and the type tags strings. *)
Lemma generate_markdown_ok (meta : file_info) (st : structure_info)
    (t : tally) (tags : list value) systems (stats : statistics_info) :
  Spec.in_step t ->
  Forall (fun v => is_Some (tag_string v)) tags ->
  exists report,
    generate_markdown
      {| a_file_info := Some meta; structure := Some st;
         properties := Some (finish t); geometry_types := tags;
         coordinate_systems := systems; statistics := Some stats |}
    = Ok report.
Proof.
  intros Ht Htags. unfold generate_markdown.
  cbn [a_file_info structure properties geometry_types coordinate_systems
       statistics field mbind result_bind].
  destruct (tag_strings_defined _ Htags) as [names Hnames].
  assert (exists tags0, sorted_tags tags = Ok tags0) as [tags0 Hsorted].
  { unfold sorted_tags. rewrite Hnames. by eexists. }
  rewrite Hsorted.
  destruct (summary_rows_ok t Ht) as (rows & Hrows & _). rewrite Hrows.
  destruct (truthy (VList tags)), (all_properties (finish t));
    cbn [mbind result_bind]; by eexists.
Qed.

Lemma print_summary_ok (meta : file_info) (st : structure_info)
    (pr : properties_info) (tags : list value) systems stats :
  Forall (fun v => is_Some (tag_string v)) tags ->
  print_summary
    {| a_file_info := Some meta; structure := Some st;
       properties := Some pr; geometry_types := tags;
       coordinate_systems := systems; statistics := stats |}
  = Ok tt.
Proof.
  intros Htags. unfold print_summary. simpl.
  destruct (tag_strings_defined _ Htags) as [names ->].
  by destruct (negb (bool_decide (tags = []))).
Qed.

(** The codec tells text from byte strings that encode none: ASCII and
    multi-byte sequences pass, the three bytes a lone surrogate ([U+D83D],
    which [json.loads] accepts from the escape) would take do not. *)
Example utf8_rejects_lone_surrogate :
  Spec.utf8 "Afar" = true /\
  Spec.utf8 (String (ascii_of_N 195) (String (ascii_of_N 169) "")) = true /\
  Spec.utf8 (String (ascii_of_N 240) (String (ascii_of_N 159)
              (String (ascii_of_N 152) (String (ascii_of_N 128) "")))) = true /\
  Spec.utf8 (String (ascii_of_N 237) (String (ascii_of_N 160)
              (String (ascii_of_N 189) ""))) = false /\
  Spec.encodable
    (VDict [("name", VStr (String (ascii_of_N 237) (String (ascii_of_N 160)
                             (String (ascii_of_N 189) ""))))]) = false.
Proof. by split_and!. Qed.

(** X26: on a collection of well-formed features (objects whose properties
    are a mapping, or absent, and whose geometry is an object, or absent,
    with a string or no type tag), when the text of the document and the
    path of the file can be encoded as UTF-8, none of the lookups, method
    calls and conversions of the three passes, of the report and of the
    summary raises: the analysis fills every aggregate, [main] writes the
    report and ends with status 0.  The two encoding hypotheses are what the
    [utf-8] file the report goes to asks of the text written to it; a
    document with a lone surrogate is left out by them. *)
Theorem main_well_formed_succeeds d (fs : list value) (meta : file_info) :
  lookup "features" d = Some (VList fs) ->
  Forall (fun f => Spec.well_formed_feature f = true) fs ->
  Spec.encodable (VDict d) = true ->
  Spec.utf8 (file_path meta) = true ->
  exists a report,
    analyze (Some (VDict d)) meta = Ok (Some a) /\
    generate_markdown a = Ok report /\
    print_summary a = Ok tt /\
    main (Some (VDict d)) meta
    = {| exit_status := 0; report_file := Some report; traceback := None |}.
Proof.
  intros Hl Hfs _ _. destruct (collection_shape _ _ Hl) as (Ht & Hc & Hg).
  assert (exists t, analyze_properties (VDict d) = Ok (Some (finish t)) /\
                    Spec.in_step t) as (t & Hpr & Hin).
  { destruct (tally_features_ok fs empty_tally) as [t Hfold].
    { eapply Forall_impl; [exact Hfs|]. apply well_formed_has_mapping. }
    assert (analyze_properties (VDict d) = Ok (Some (finish t))) as Hpr.
    { unfold analyze_properties. rewrite Ht, Hc. simpl negb. cbv iota.
      rewrite Hg. simpl. by rewrite Hfold. }
    exists t. split; [done|].
    destruct (analyze_properties_tally _ _ Hpr) as (t' & Heq & Hin').
    eapply tally_features_in_step; [|exact Hfold].
    unfold Spec.in_step, Spec.aligned. simpl. split_and!; constructor. }
  destruct (geometry_steps_well_formed fs [] [] Hfs (Forall_nil_2 _))
    as (tags & counts & Hfold & Htags).
  assert (analyze_geometry (VDict d)
          = Ok (Some (tags, {| coordinate_total := sum_list counts;
                               coordinate_features := length counts;
                               total_features := length fs |}))) as Hge.
  { unfold analyze_geometry. rewrite Ht, Hc. simpl negb. cbv iota.
    rewrite Hg. simpl. by rewrite Hfold. }
  unfold main, analyze.
  rewrite (analyze_structure_collection _ _ Hl), Hpr, Hge.
  cbn [mbind result_bind fmap option_fmap option_map from_option fst snd].
  edestruct (generate_markdown_ok meta) as [report Hreport];
    [exact Hin|exact Htags|].
  eexists _, report. split; [done|]. rewrite Hreport.
  rewrite print_summary_ok by done. by split_and!.
Qed.

Lemma geometry_step_not_mapping acc (f : value) :
  Spec.has_mapping_properties f = true ->
  isinstance_dict (Spec.geometry_of f) = false ->
  geometry_step acc f = Raise AttributeError.
Proof.
  intros Hp Hg. destruct f as [| | | | | |fd]; try done.
  destruct acc as [tags counts].
  unfold geometry_step, Spec.geometry_of in *. cbn -[lookup].
  by destruct (from_option id (VDict []) (lookup "geometry" fd)).
Qed.

(** X27: a feature with a geometry that is not an object ([null], as GeoJSON
    allows for a feature without location), after well-formed features and
    among features with mapping properties, ends [main] with an uncaught
    [AttributeError] and no report. *)
Theorem main_geometry_not_mapping d (pre post : list value) (f : value)
    (meta : file_info) :
  lookup "features" d = Some (VList (pre ++ f :: post)) ->
  Forall (fun f => Spec.well_formed_feature f = true) pre ->
  Spec.has_mapping_properties f = true ->
  isinstance_dict (Spec.geometry_of f) = false ->
  Forall (fun f => Spec.has_mapping_properties f = true) post ->
  main (Some (VDict d)) meta
  = {| exit_status := 1; report_file := None;
       traceback := Some AttributeError |}.
Proof.
  intros Hl Hpre Hf Hg Hpost.
  destruct (collection_shape _ _ Hl) as (Ht & Hc & Hgi).
  destruct (tally_features_ok (pre ++ f :: post) empty_tally) as [t Hfold].
  { apply Forall_app. split; [|by constructor].
    eapply Forall_impl; [exact Hpre|]. apply well_formed_has_mapping. }
  destruct (geometry_steps_well_formed pre [] [] Hpre (Forall_nil_2 _))
    as (tags & counts & Hgeo & _).
  unfold main, analyze. rewrite (analyze_structure_collection _ _ Hl).
  unfold analyze_properties, analyze_geometry.
  rewrite Ht, Hc. simpl negb. cbv iota. rewrite Hgi. simpl.
  rewrite Hfold. cbn [mbind result_bind]. rewrite foldlM_app, Hgeo.
  cbn [mbind result_bind foldlM].
  by rewrite geometry_step_not_mapping.
Qed.
End analyzer_more.

(** Witness of [main_well_formed_succeeds]: two located features, all
    text ASCII. *)
Lemma main_well_formed_succeeds_witness :
  exists a report,
    @Analyzer.analyze Spec.sample_format (Some Spec.located_collection)
      Spec.sample_file = Py.Ok (Some a) /\
    Analyzer.generate_markdown a = Py.Ok report /\
    Analyzer.print_summary a = Py.Ok tt /\
    @Analyzer.main Spec.sample_format (Some Spec.located_collection)
      Spec.sample_file
    = {| Analyzer.exit_status := 0; Analyzer.report_file := Some report;
         Analyzer.traceback := None |}.
Proof.
  refine (@main_well_formed_succeeds Spec.sample_format
            [("type", Py.VStr "FeatureCollection");
             ("features", Py.VList Spec.located_features)]
            Spec.located_features Spec.sample_file eq_refl _ eq_refl eq_refl).
  repeat constructor.
Defined.

(** Witness of [main_geometry_not_mapping]: a located feature followed by
    one whose geometry is null. *)
Lemma main_geometry_not_mapping_witness :
  @Analyzer.main Spec.sample_format
    (Some (Py.VDict
             [("features",
               Py.VList (Spec.located_features
                         ++ Py.VDict [("geometry", Py.VNone)] :: []))]))
    Spec.sample_file
  = {| Analyzer.exit_status := 1; Analyzer.report_file := None;
       Analyzer.traceback := Some Py.AttributeError |}.
Proof.
  refine (@main_geometry_not_mapping Spec.sample_format
            [("features",
              Py.VList (Spec.located_features
                        ++ Py.VDict [("geometry", Py.VNone)] :: []))]
            Spec.located_features [] (Py.VDict [("geometry", Py.VNone)])
            Spec.sample_file eq_refl _ eq_refl eq_refl _).
  - repeat constructor.
  - constructor.
Defined.

(** Witness of [main_properties_not_mapping]: the second feature has null
    properties. *)
Lemma main_properties_not_mapping_witness :
  @Analyzer.main Spec.sample_format
    (Some (Py.VDict
             [("features",
               Py.VList [Py.VDict [("properties", Py.VDict [])];
                         Py.VDict [("properties", Py.VNone)]])]))
    Spec.sample_file
  = {| Analyzer.exit_status := 1; Analyzer.report_file := None;
       Analyzer.traceback := Some Py.AttributeError |}.
Proof.
  refine (@main_properties_not_mapping Spec.sample_format
            [("features",
              Py.VList [Py.VDict [("properties", Py.VDict [])];
                        Py.VDict [("properties", Py.VNone)]])]
            [Py.VDict [("properties", Py.VDict [])];
             Py.VDict [("properties", Py.VNone)]]
            Spec.sample_file eq_refl _).
  apply Exists_cons_tl, Exists_cons_hd. reflexivity.
Defined.

(** Witness of [geometry_statistics_bounds]: two features, one of them with
    coordinates. *)
Lemma geometry_statistics_bounds_witness :
  Analyzer.coordinate_features
    {| Analyzer.coordinate_total := 2; Analyzer.coordinate_features := 1;
       Analyzer.total_features := 2 |}
  ≤ 2 /\
  length [Py.VStr "Point"] ≤ 2.
Proof.
  exact (@geometry_statistics_bounds
           (Py.VDict
              [("features",
                Py.VList
                  [Py.VDict [("geometry",
                              Py.VDict [("type", Py.VStr "Point");
                                        ("coordinates",
                                         Py.VList [Py.VInt 1; Py.VInt 2])])];
                   Py.VDict []])])
           [Py.VStr "Point"]
           {| Analyzer.coordinate_total := 2;
              Analyzer.coordinate_features := 1;
              Analyzer.total_features := 2 |}
           eq_refl).
Defined.

(** Witness of [main_falsy_document]: the document [[]]. *)
Lemma main_falsy_document_witness :
  @Analyzer.main Spec.sample_format (Some (Py.VList [])) Spec.sample_file
  = {| Analyzer.exit_status := 1; Analyzer.report_file := None;
       Analyzer.traceback := Some (Py.KeyError "type") |}.
Proof.
  exact (proj2 (@main_falsy_document Spec.sample_format (Py.VList [])
                  Spec.sample_file eq_refl)).
Defined.

(** Witness of [main_not_object]: an array holding one feature. *)
Lemma main_not_object_witness :
  @Analyzer.main Spec.sample_format (Some (Py.VList [Py.VDict []]))
    Spec.sample_file
  = {| Analyzer.exit_status := 1; Analyzer.report_file := None;
       Analyzer.traceback := Some Py.AttributeError |}.
Proof.
  exact (@main_not_object Spec.sample_format (Py.VList [Py.VDict []])
           Spec.sample_file eq_refl eq_refl).
Defined.


(** Witness of [extract_one_properties_not_mapping]. *)
Lemma extract_one_properties_not_mapping_witness :
  @Extractor.extract_one Spec.sample_format "tags.name:en"
    (Py.VDict [("properties", Py.VNone)])
  = Py.Ok "".
Proof.
  exact (@extract_one_properties_not_mapping Spec.sample_format
           [("properties", Py.VNone)] "tags.name:en" eq_refl).
Defined.

(** Witness of [occurrence_counts_sum]: six (feature, property) pairs. *)
Lemma occurrence_counts_sum_witness :
  sum_list_with snd (Analyzer.all_properties Spec.ranked_profile)
  = length (Spec.key_stream Spec.ranked_collection) /\
  Forall (fun kc => 1 ≤ kc.2) (Analyzer.all_properties Spec.ranked_profile).
Proof.
  exact (@occurrence_counts_sum Spec.sample_format Spec.ranked_collection
           Spec.ranked_profile eq_refl).
Defined.

(** Witness of [sample_values_capped]: a property met six times keeps five
    samples. *)
Lemma sample_values_capped_witness :
  exists samples,
    Py.lookup "population" (Analyzer.sample_values Spec.crowded_profile)
    = Some samples /\
    length samples = 6 `min` 5.
Proof.
  exact (@sample_values_capped Spec.sample_format Spec.crowded_collection
           Spec.crowded_profile "population" 6 eq_refl
           (list_elem_of_here _ _)).
Defined.

(** Witness of [distinct_counts_bounded]: b is met twice, with two values of
    one type. *)
Lemma distinct_counts_bounded_witness :
  exists u types,
    Py.lookup "b" (Analyzer.unique_value_counts Spec.ranked_profile) = Some u
    /\ 1 ≤ u ≤ 2 /\
    Py.lookup "b" (Analyzer.property_types Spec.ranked_profile) = Some types
    /\ 1 ≤ length types ≤ 2.
Proof.
  exact (@distinct_counts_bounded Spec.sample_format Spec.ranked_collection
           Spec.ranked_profile "b" 2 eq_refl (list_elem_of_here _ _)).
Defined.

(** Witness of [summary_rows_defined]: four properties, four rows. *)
Lemma summary_rows_defined_witness :
  exists rows,
    mapM (Analyzer.summary_row Spec.ranked_profile)
      (Analyzer.all_properties Spec.ranked_profile)
    = Py.Ok rows /\
    length rows = length (Analyzer.all_properties Spec.ranked_profile).
Proof.
  exact (@summary_rows_defined Spec.sample_format Spec.ranked_collection
           Spec.ranked_profile eq_refl).
Defined.
